(** * Jenkins instance resolution (plugins/jenkins-backend, jenkinsInfoProvider.ts)

    A shallow embedding of [DefaultJenkinsInfoProvider]: the annotation
    lookup, the [instance:job] split, the lookup of the instance settings in
    the configuration and the construction of the Basic authorization header. *)

From Stdlib Require Import NArith ZArith Lia Ascii String.
From stdpp Require Import base option list gmap strings.

Local Open Scope Z_scope.
#[local] Set Warnings "-clear-no-such-hyp".

(** ** JavaScript strings

    A JavaScript string is a sequence of UTF-16 code units.  [indexOf],
    [substring] and [length] work on code units, and [Buffer.from(s, 'binary')]
    keeps the low byte of each of them, so the code units are kept as numbers. *)

Module JS.

(** A string literal of the source, as code units. *)
Definition lit (s : string) : list N :=
  N_of_ascii <$> list_ascii_of_string s.

Definition length (s : list N) : Z := Z.of_nat (List.length s).

Fixpoint startsWith (pat s : list N) : bool :=
  match pat, s with
  | [], _ => true
  | _ :: _, [] => false
  | p :: pat', c :: s' => if N.eqb p c then startsWith pat' s' else false
  end.

(** [s.indexOf(pat)] searching from position [i] of the original string:
    the first position at which [pat] occurs, [-1] when there is none. *)
Fixpoint indexOfFrom (pat s : list N) (i : Z) : Z :=
  if startsWith pat s then i
  else match s with
       | [] => -1
       | _ :: s' => indexOfFrom pat s' (i + 1)
       end.

Definition indexOf (s pat : list N) : Z := indexOfFrom pat s 0.

(** [s.substring(start, end)]: both indices are clamped to [0 .. length]
    and swapped when [start > end]. *)
Definition clamp (len i : Z) : Z := Z.max 0 (Z.min i len).

Definition substring (s : list N) (start end_ : Z) : list N :=
  let a := clamp (length s) start in
  let b := clamp (length s) end_ in
  let from := Z.min a b in
  let to := Z.max a b in
  take (Z.to_nat (to - from)) (drop (Z.to_nat from) s).

(** Truthiness of a string, and of a value that is a string or [undefined]. *)
Definition truthy (s : list N) : bool :=
  match s with [] => false | _ :: _ => true end.

Definition truthy_opt (v : option (list N)) : bool :=
  match v with None => false | Some s => truthy s end.

(** [a || b] on values that are strings or [undefined]. *)
Definition or_else (a b : option (list N)) : option (list N) :=
  if truthy_opt a then a else b.

(** [a === b] on strings. *)
Definition strict_eq (a b : list N) : bool := bool_decide (a = b).

End JS.

(** The code unit of [':'], U+003A. *)
Definition colon : N := 58%N.

(** ** The annotation split (getInstance, lines 97-110) *)

Definition splitJenkinsAndJobName (jenkinsAndJobName : list N)
  : option (list N) * list N :=
  let splitIndex := JS.indexOf jenkinsAndJobName (JS.lit ":") in
  if splitIndex =? -1 then
    (* no jenkinsName specified, use default *)
    (None, jenkinsAndJobName)
  else
    (* There is a jenkinsName specified *)
    (Some (JS.substring jenkinsAndJobName 0 splitIndex),
     JS.substring jenkinsAndJobName (splitIndex + 1) (JS.length jenkinsAndJobName)).

(** ** Buffers and base64

    [Buffer.from(s, 'binary')] and [buf.toString('base64')] of Node. *)

Module Buffer.

(** The 'binary' (latin1) encoding writes the low byte of every code unit. *)
Definition from_binary (s : list N) : list N :=
  (fun c => N.land c 255) <$> s.

(** Reading bytes back with [toString('binary')]: a byte is its code unit. *)
Definition to_binary (bytes : list N) : list N := bytes.

End Buffer.

Module Base64.

Definition alphabet : list N :=
  JS.lit "ABCDEFGHIJKLMNOPQRSTUVWXYZabcdefghijklmnopqrstuvwxyz0123456789+/".

(** The code unit of ['='], the padding character. *)
Definition pad : N := 61%N.

(** The character of a 6-bit group. *)
Definition digit (n : N) : N := nth (N.to_nat n) alphabet pad.

Fixpoint encode (bytes : list N) : list N :=
  match bytes with
  | [] => []
  | [b1] =>
      [digit (N.shiftr b1 2);
       digit (N.shiftl (N.land b1 3) 4);
       pad; pad]
  | [b1; b2] =>
      [digit (N.shiftr b1 2);
       digit (N.lor (N.shiftl (N.land b1 3) 4) (N.shiftr b2 4));
       digit (N.shiftl (N.land b2 15) 2);
       pad]
  | b1 :: b2 :: b3 :: rest =>
      digit (N.shiftr b1 2)
      :: digit (N.lor (N.shiftl (N.land b1 3) 4) (N.shiftr b2 4))
      :: digit (N.lor (N.shiftl (N.land b2 15) 2) (N.shiftr b3 6))
      :: digit (N.land b3 63)
      :: encode rest
  end.

(** The 6-bit group of a character of the alphabet. *)
Fixpoint index_in (c : N) (l : list N) (i : N) : option N :=
  match l with
  | [] => None
  | x :: l' => if N.eqb x c then Some i else index_in c l' (i + 1)%N
  end.

Definition value (c : N) : option N := index_in c alphabet 0%N.

(** The decoder of RFC 4648, with which the header is read back: groups of
    four characters, the last one possibly padded. *)
Fixpoint decode (s : list N) : option (list N) :=
  match s with
  | [] => Some []
  | c1 :: c2 :: c3 :: c4 :: rest =>
      v1 ← value c1;
      v2 ← value c2;
      let b1 := N.lor (N.shiftl v1 2) (N.shiftr v2 4) in
      if N.eqb c4 pad then
        match rest with
        | [] =>
            if N.eqb c3 pad then Some [b1]
            else
              v3 ← value c3;
              Some [b1; N.lor (N.shiftl (N.land v2 15) 4) (N.shiftr v3 2)]
        | _ :: _ => None
        end
      else
        v3 ← value c3;
        v4 ← value c4;
        tail ← decode rest;
        Some (b1
              :: N.lor (N.shiftl (N.land v2 15) 4) (N.shiftr v3 2)
              :: N.lor (N.shiftl (N.land v3 3) 6) v4
              :: tail)
  | _ => None
  end.

End Base64.

(** ** Catalog entities *)

Record EntityName := {
  kind : list N;
  namespace : list N;
  name : list N;
}.

Record EntityMeta := {
  annotations : option (gmap (list N) (list N));
}.

Record Entity := {
  metadata : EntityMeta;
}.

(** ** Errors and results

    The source throws [Error]s that differ in their message; each message is a
    constructor here.  [ConfigFieldMissing] is the failure of a configuration
    accessor on the key it carries, [LookupFailure] a rejection of the catalog
    request, which [getInstance] lets through. *)

Inductive Error :=
| EntityNotFound (entityRef : EntityName)
| AnnotationMissing (entityRef : EntityName)
| NoDefaultInstance
| NamedInstanceNotFound (jenkinsName : list N)
| ConfigFieldMissing (key : list N)
| LookupFailure.

Inductive Result (A : Type) :=
| Ok (a : A)
| Err (e : Error).

Arguments Ok {A} a.
Arguments Err {A} e.

#[global] Instance Result_ret : MRet Result := fun _ a => Ok a.
#[global] Instance Result_bind : MBind Result := fun _ _ f m =>
  match m with
  | Ok a => f a
  | Err e => Err e
  end.

(** [catalog.getEntityByName]: the entity, [undefined] when there is none, or
    a rejected request. *)
Definition CatalogClient := EntityName -> Result (option Entity).

(** ** The configuration reader *)

(** Modelled from the spec: the [Config] interface of [@backstage/config] is
    imported by the source and not part of it.  A node holds its string
    fields, its sub-nodes and its arrays of nodes; the four accessors follow
    section 6 of the specification: [getConfig] fails on a missing key,
    [getConfigArray] gives the empty sequence for a missing key, [getString]
    fails on a missing or empty string, [getOptionalString] gives the string
    or [undefined]. *)
#[warnings="-register-all"] Inductive Config : Type :=
  ConfigNode (strings : gmap (list N) (list N))
             (children : gmap (list N) Config)
             (arrays : gmap (list N) (list Config)).

Module ConfigReader.

Definition strings (c : Config) : gmap (list N) (list N) :=
  match c with ConfigNode s _ _ => s end.

Definition children (c : Config) : gmap (list N) Config :=
  match c with ConfigNode _ ch _ => ch end.

Definition arrays (c : Config) : gmap (list N) (list Config) :=
  match c with ConfigNode _ _ a => a end.

Definition getConfig (c : Config) (key : list N) : Result Config :=
  match children c !! key with
  | Some sub => Ok sub
  | None => Err (ConfigFieldMissing key)
  end.

Definition getConfigArray (c : Config) (key : list N) : list Config :=
  default [] (arrays c !! key).

Definition getOptionalString (c : Config) (key : list N) : option (list N) :=
  strings c !! key.

Definition getString (c : Config) (key : list N) : Result (list N) :=
  match strings c !! key with
  | Some s => if JS.truthy s then Ok s else Err (ConfigFieldMissing key)
  | None => Err (ConfigFieldMissing key)
  end.

End ConfigReader.

(** ** The provider *)

Record JenkinsInfo := {
  baseUrl : list N;
  headers : option (gmap (list N) (list N));
  jobName : list N;
}.

Record GetInstanceOptions := {
  opt_entityRef : EntityName;
  opt_jobName : option (list N);
}.

(** Which of the two lookups of [getInstanceConfig] runs. *)
Inductive LookupPath :=
| DefaultInstanceLookup
| NamedInstanceLookup (jenkinsName : list N).

Module DefaultJenkinsInfoProvider.

Import ConfigReader.

Definition OLD_JENKINS_ANNOTATION : list N := JS.lit "jenkins.io/github-folder".
Definition NEW_JENKINS_ANNOTATION : list N := JS.lit "jenkins.io/job-slug".
Definition DEFAULT_JENKINS_NAME : list N := JS.lit "default".

(** [entity.metadata.annotations?.[key]] *)
Definition annotation (entity : Entity) (key : list N) : option (list N) :=
  annotations (metadata entity) ≫= (.!! key).

Definition getEntityAnnotationValue (entity : Entity) : option (list N) :=
  JS.or_else (annotation entity OLD_JENKINS_ANNOTATION)
             (annotation entity NEW_JENKINS_ANNOTATION).

(** [configs.filter(c => c.getString('name') === wanted)]: the callback
    runs on every element in array order, and an exception of [getString]
    leaves the filter. *)
Fixpoint filterByName (wanted : list N) (configs : list Config)
  : Result (list Config) :=
  match configs with
  | [] => Ok []
  | c :: rest =>
      n ← getString c (JS.lit "name");
      kept ← filterByName wanted rest;
      Ok (if JS.strict_eq n wanted then c :: kept else kept)
  end.

(** The test of line 153, [!jenkinsName || jenkinsName === DEFAULT_JENKINS_NAME]. *)
Definition lookupPath (jenkinsName : option (list N)) : LookupPath :=
  match jenkinsName with
  | None => DefaultInstanceLookup
  | Some n =>
      if negb (JS.truthy n) || JS.strict_eq n DEFAULT_JENKINS_NAME
      then DefaultInstanceLookup
      else NamedInstanceLookup n
  end.

(** Lines 154-175. *)
Definition defaultInstanceLookup (jenkinsConfig : Config) : Result Config :=
  matching ← filterByName DEFAULT_JENKINS_NAME
               (getConfigArray jenkinsConfig (JS.lit "instances"));
  match head matching with
  | Some namedInstanceConfig => Ok namedInstanceConfig
  | None =>
      let baseUrl := getOptionalString jenkinsConfig (JS.lit "baseUrl") in
      let username := getOptionalString jenkinsConfig (JS.lit "username") in
      let apiKey := getOptionalString jenkinsConfig (JS.lit "apiKey") in
      if negb (JS.truthy_opt baseUrl)
         || negb (JS.truthy_opt username)
         || negb (JS.truthy_opt apiKey)
      then Err NoDefaultInstance
      else Ok jenkinsConfig
  end.

(** Lines 178-189. *)
Definition namedInstanceLookup (jenkinsName : list N) (jenkinsConfig : Config)
  : Result Config :=
  matching ← filterByName jenkinsName
               (getConfigArray jenkinsConfig (JS.lit "instances"));
  match head matching with
  | Some namedInstanceConfig => Ok namedInstanceConfig
  | None => Err (NamedInstanceNotFound jenkinsName)
  end.

Definition getInstanceConfig (jenkinsName : option (list N)) (rootConfig : Config)
  : Result Config :=
  jenkinsConfig ← getConfig rootConfig (JS.lit "jenkins");
  match lookupPath jenkinsName with
  | DefaultInstanceLookup => defaultInstanceLookup jenkinsConfig
  | NamedInstanceLookup n => namedInstanceLookup n jenkinsConfig
  end.

(** The credentials of line 121 and the header value of line 128. *)
Definition basicAuth (username apiKey : list N) : list N :=
  let creds :=
    Base64.encode (Buffer.from_binary (username ++ JS.lit ":" ++ apiKey)) in
  JS.lit "Basic " ++ creds.

(** Lines 97-131 of [getInstance]: from the annotation value to the result. *)
Definition infoFromAnnotation (config : Config) (jenkinsAndJobName : list N)
  : Result JenkinsInfo :=
  let '(jenkinsName, jobName) := splitJenkinsAndJobName jenkinsAndJobName in
  (* lookup baseURL + creds from config *)
  instanceConfig ← getInstanceConfig jenkinsName config;
  baseUrl ← getString instanceConfig (JS.lit "baseUrl");
  username ← getString instanceConfig (JS.lit "username");
  apiKey ← getString instanceConfig (JS.lit "apiKey");
  Ok {| baseUrl := baseUrl;
        headers := Some {[ JS.lit "Authorization" := basicAuth username apiKey ]};
        jobName := jobName |}.

Definition getInstance (catalog : CatalogClient) (config : Config)
           (opt : GetInstanceOptions) : Result JenkinsInfo :=
  (* load entity *)
  found ← catalog (opt_entityRef opt);
  match found with
  | None => Err (EntityNotFound (opt_entityRef opt))
  | Some entity =>
      (* lookup [jenkinsName#]jobName from entity annotation *)
      match getEntityAnnotationValue entity with
      | Some jenkinsAndJobName =>
          if negb (JS.truthy jenkinsAndJobName)
          then Err (AnnotationMissing (opt_entityRef opt))
          else infoFromAnnotation config jenkinsAndJobName
      | None => Err (AnnotationMissing (opt_entityRef opt))
      end
  end.

End DefaultJenkinsInfoProvider.

(** The provider of canned data for local development. *)
Module DummyJenkinsInfoProvider.

Definition getInstance (_ : GetInstanceOptions) : Result JenkinsInfo :=
  Ok {| baseUrl := JS.lit "https://jenkins.internal.example.com/";
        headers :=
          Some {[ JS.lit "Authorization" :=
                    JS.lit "Basic YWRtaW46MTFlYzI1NmU0Mzg1MDFjM2Y1Yzc2Yjc1MWE3ZTQ3YWY4Mw==" ]};
        jobName := JS.lit "department-A/team-1/project-foo" |}.

End DummyJenkinsInfoProvider.

(** ** Vocabulary of the statements *)

Section Vocabulary.

Import ConfigReader DefaultJenkinsInfoProvider.

(** The entry's [name] can be read and equals [wanted]. *)
Definition entryNamed (wanted : list N) (c : Config) : Prop :=
  getString c (JS.lit "name") = Ok wanted.

(** The entry's [name] can be read. *)
Definition named (c : Config) : Prop :=
  exists n, getString c (JS.lit "name") = Ok n.

(** The entry has no [name], or an empty one. *)
Definition nameless (c : Config) : Prop :=
  strings c !! JS.lit "name" = None \/ strings c !! JS.lit "name" = Some [].

(** The callback of the filter, as a total test. *)
Definition nameIs (wanted : list N) (c : Config) : bool :=
  match getString c (JS.lit "name") with
  | Ok n => JS.strict_eq n wanted
  | Err _ => false
  end.

(** An optional string field is present and not empty. *)
Definition fieldPresent (c : Config) (key : list N) : Prop :=
  exists s, getOptionalString c key = Some s /\ s <> [].

(** The flat settings [baseUrl], [username] and [apiKey] are all there. *)
Definition flatSettingsPresent (c : Config) : Prop :=
  fieldPresent c (JS.lit "baseUrl") /\
  fieldPresent c (JS.lit "username") /\
  fieldPresent c (JS.lit "apiKey").

(** The name that [getInstanceConfig] searches the array for. *)
Definition lookedUpName (jenkinsName : option (list N)) : list N :=
  match lookupPath jenkinsName with
  | DefaultInstanceLookup => DEFAULT_JENKINS_NAME
  | NamedInstanceLookup n => n
  end.

(** Reading credentials back: the text before and after the first colon. *)
Definition splitAtFirstColon (s : list N) : option (list N * list N) :=
  let i := JS.indexOf s (JS.lit ":") in
  if i =? -1 then None
  else Some (JS.substring s 0 i, JS.substring s (i + 1) (JS.length s)).

(** The value an annotation key carries, when it carries a non-empty one. *)
Definition annotationValue (entity : Entity) (key : list N) : option (list N) :=
  match annotation entity key with
  | Some (c :: v) => Some (c :: v)
  | _ => None
  end.

(** The key is present in the entity's annotation mapping. *)
Definition annotationPresent (entity : Entity) (key : list N) : Prop :=
  is_Some (annotation entity key).

(** Writing an annotation value from its two parts, the inverse of the split
    of lines 97-110. *)
Definition rejoin (parts : option (list N) * list N) : list N :=
  match parts with
  | (Some jenkinsName, jobName) => jenkinsName ++ JS.lit ":" ++ jobName
  | (None, jobName) => jobName
  end.

(** A character that base64 text is made of. *)
Definition base64Char (c : N) : Prop :=
  c ∈ Base64.alphabet \/ c = Base64.pad.

(** The keys the provider reads from the configuration. *)
Definition readKeys : list (list N) :=
  [JS.lit "jenkins"; JS.lit "name"; JS.lit "baseUrl"; JS.lit "username";
   JS.lit "apiKey"].

(** The entity with one more annotation, or one annotation changed. *)
Definition withAnnotation (key value : list N) (entity : Entity) : Entity :=
  {| metadata :=
       {| annotations :=
            Some (<[ key := value ]> (default ∅ (annotations (metadata entity)))) |} |}.

End Vocabulary.

(** ** Sample data

    Small configurations and entities on which the statements are run. *)

Module Sample.

Definition fields (l : list (string * string)) : gmap (list N) (list N) :=
  list_to_map ((fun kv => (JS.lit kv.1, JS.lit kv.2)) <$> l).

(** A node with string fields only, such as an entry of [instances]. *)
Definition entry (l : list (string * string)) : Config :=
  ConfigNode (fields l) ∅ ∅.

(** The [jenkins] node: its flat fields and its [instances] array. *)
Definition jenkinsNode (flat : list (string * string)) (instances : list Config)
  : Config :=
  ConfigNode (fields flat) ∅ {[ JS.lit "instances" := instances ]}.

Definition rootOf (jenkinsConfig : Config) : Config :=
  ConfigNode ∅ {[ JS.lit "jenkins" := jenkinsConfig ]} ∅.

Definition entityOf (l : list (string * string)) : Entity :=
  {| metadata := {| annotations := Some (fields l) |} |}.

Definition catalogOf (entity : Entity) : CatalogClient :=
  fun _ => Ok (Some entity).

Definition componentRef : EntityName :=
  {| kind := JS.lit "component";
     namespace := JS.lit "default";
     name := JS.lit "service" |}.

Definition options (j : option (list N)) : GetInstanceOptions :=
  {| opt_entityRef := componentRef; opt_jobName := j |}.

Definition defaultEntry : Config :=
  entry [("name", "default"); ("baseUrl", "https://ci.example/");
         ("username", "u"); ("apiKey", "k")].

Definition secondDefaultEntry : Config :=
  entry [("name", "default"); ("baseUrl", "https://other.example/");
         ("username", "v"); ("apiKey", "w")].

Definition teamEntry : Config :=
  entry [("name", "team-1"); ("baseUrl", "https://team.example/");
         ("username", "t"); ("apiKey", "s")].

Definition secondTeamEntry : Config :=
  entry [("name", "team-1"); ("baseUrl", "https://team2.example/");
         ("username", "t2"); ("apiKey", "s2")].

(** An entry without a [name]. *)
Definition anonymousEntry : Config :=
  entry [("baseUrl", "https://anon.example/"); ("username", "a"); ("apiKey", "b")].

Definition flatSettings : list (string * string) :=
  [("baseUrl", "https://flat.example/"); ("username", "fu"); ("apiKey", "fk")].

(** An entry named "default" without an [apiKey]. *)
Definition incompleteDefaultEntry : Config :=
  entry [("name", "default"); ("baseUrl", "https://ci.example/"); ("username", "u")].

Definition otherEntry : Config :=
  entry [("name", "team-9"); ("baseUrl", "https://nine.example/");
         ("username", "n"); ("apiKey", "i")].

End Sample.

(** ** Facts about the string primitives *)

Section StringFacts.

Lemma lit_colon : JS.lit ":" = [colon].
Proof. reflexivity. Qed.

Lemma indexOfFrom_colon_cons c s i :
  JS.indexOfFrom [colon] (c :: s) i =
  if N.eqb colon c then i else JS.indexOfFrom [colon] s (i + 1).
Proof.
  cbn [JS.indexOfFrom JS.startsWith].
  destruct (N.eqb colon c); reflexivity.
Qed.

Lemma indexOfFrom_absent s i :
  colon ∉ s -> JS.indexOfFrom [colon] s i = -1.
Proof.
  revert i. induction s as [|c s IH]; intros i Hs; [reflexivity|].
  rewrite indexOfFrom_colon_cons.
  apply not_elem_of_cons in Hs as [Hc Hs].
  destruct (N.eqb_spec colon c) as [<-|_]; [done|]. by apply IH.
Qed.

Lemma indexOfFrom_first a b i :
  colon ∉ a ->
  JS.indexOfFrom [colon] (a ++ colon :: b) i = i + JS.length a.
Proof.
  revert i. induction a as [|c a IH]; intros i Ha.
  - simpl. unfold JS.length. simpl. lia.
  - apply not_elem_of_cons in Ha as [Hc Ha].
    change ((c :: a) ++ colon :: b) with (c :: (a ++ colon :: b)).
    rewrite indexOfFrom_colon_cons.
    destruct (N.eqb_spec colon c) as [<-|_]; [done|].
    rewrite IH by done. unfold JS.length. simpl List.length. lia.
Qed.

(** Every string either has no colon or splits at its first colon. *)
Lemma first_colon_split (s : list N) :
  colon ∉ s \/ exists a b, s = a ++ colon :: b /\ colon ∉ a.
Proof.
  induction s as [|c s IH]; [left; apply not_elem_of_nil|].
  destruct (decide (c = colon)) as [->|Hc].
  - right. exists [], s. split; [done|apply not_elem_of_nil].
  - destruct IH as [Hs|(a & b & -> & Ha)].
    + left. apply not_elem_of_cons. split; [congruence|done].
    + right. exists (c :: a), b. split; [done|].
      apply not_elem_of_cons. split; [congruence|done].
Qed.

Lemma substring_in_range s (i j : nat) :
  (i <= j <= List.length s)%nat ->
  JS.substring s (Z.of_nat i) (Z.of_nat j) = take (j - i) (drop i s).
Proof.
  intros Hij. unfold JS.substring, JS.clamp, JS.length.
  f_equal; [|f_equal]; lia.
Qed.

Lemma substring_prefix a b :
  JS.substring (a ++ b) 0 (JS.length a) = a.
Proof.
  unfold JS.length. change 0 with (Z.of_nat 0).
  rewrite substring_in_range by (rewrite length_app; lia).
  rewrite Nat.sub_0_r, drop_0. by rewrite take_app_length.
Qed.

Lemma substring_suffix a b :
  JS.substring (a ++ b) (JS.length a) (JS.length (a ++ b)) = b.
Proof.
  unfold JS.length.
  rewrite substring_in_range by (rewrite length_app; lia).
  rewrite drop_app_length, length_app.
  replace (_ + _ - _)%nat with (List.length b) by lia.
  apply firstn_all.
Qed.

Lemma split_no_colon v :
  colon ∉ v -> splitJenkinsAndJobName v = (None, v).
Proof.
  intros Hv. unfold splitJenkinsAndJobName, JS.indexOf.
  rewrite lit_colon, indexOfFrom_absent by done. reflexivity.
Qed.

Lemma split_first_colon a b :
  colon ∉ a ->
  splitJenkinsAndJobName (a ++ colon :: b) = (Some a, b).
Proof.
  intros Ha. unfold splitJenkinsAndJobName, JS.indexOf.
  rewrite lit_colon, indexOfFrom_first by done.
  rewrite Z.add_0_l.
  destruct (Z.eqb_spec (JS.length a) (-1)) as [E|_].
  { unfold JS.length in E. lia. }
  rewrite substring_prefix.
  replace (a ++ colon :: b) with ((a ++ [colon]) ++ b) by (by rewrite <- app_assoc).
  replace (JS.length a + 1) with (JS.length (a ++ [colon])).
  2:{ unfold JS.length. rewrite length_app. simpl. lia. }
  by rewrite substring_suffix.
Qed.

End StringFacts.

(** ** Facts about base64 *)

Section Base64Facts.

Local Open Scope N_scope.

Lemma land_shiftl_small a k b : b < 2 ^ k -> N.land (N.shiftl a k) b = 0.
Proof.
  intros Hb. apply N.bits_inj_0. intros n. rewrite N.land_spec.
  destruct (N.lt_ge_cases n k) as [Hn|Hn].
  - by rewrite N.shiftl_spec_low.
  - destruct (N.eq_dec b 0) as [->|Hb0]; [by rewrite N.bits_0, andb_false_r|].
    rewrite (N.bits_above_log2 b n), andb_false_r; [done|].
    apply N.lt_le_trans with k; [|done]. apply N.log2_lt_pow2; lia.
Qed.

Lemma lor_shiftl_small a k b :
  b < 2 ^ k -> N.lor (N.shiftl a k) b = a * 2 ^ k + b.
Proof.
  intros Hb.
  rewrite <- N.lxor_lor, <- N.add_nocarry_lxor by (by apply land_shiftl_small).
  by rewrite N.shiftl_mul_pow2.
Qed.

Lemma land_low b k : N.land b (N.ones k) = b mod 2 ^ k.
Proof. apply N.land_ones. Qed.

(** Every 6-bit group is read back from its character, which is not the
    padding character. *)
Lemma digit_value n :
  n < 64 ->
  Base64.value (Base64.digit n) = Some n /\
  N.eqb (Base64.digit n) Base64.pad = false.
Proof.
  intros Hn.
  assert (Hall : forallb (fun i =>
            match Base64.value (Base64.digit (N.of_nat i)) with
            | Some m => N.eqb m (N.of_nat i)
            | None => false
            end && negb (N.eqb (Base64.digit (N.of_nat i)) Base64.pad))
            (seq 0 64) = true) by (vm_compute; reflexivity).
  rewrite forallb_forall in Hall.
  assert (Hin : In (N.to_nat n) (seq 0 64)) by (apply in_seq; lia).
  apply Hall in Hin. rewrite N2Nat.id in Hin.
  apply andb_prop in Hin as [Hv Hp].
  split.
  - destruct (Base64.value _) as [m|]; [|done]. by apply N.eqb_eq in Hv as ->.
  - by apply negb_true_iff.
Qed.


Ltac divlia := zify; Z.to_euclidean_division_equations; lia.
Ltac pow_divlia :=
  change (2 ^ 2) with 4; change (2 ^ 4) with 16; change (2 ^ 6) with 64; divlia.

Lemma list_ind3 {A} (P : list A -> Prop) :
  P [] -> (forall a, P [a]) -> (forall a b, P [a; b]) ->
  (forall a b c l, P l -> P (a :: b :: c :: l)) ->
  forall l, P l.
Proof.
  intros H0 H1 H2 H3.
  fix IH 1. intros [|a [|b [|c l]]]; [exact H0|apply H1|apply H2|apply H3, IH].
Qed.

Lemma sextet_arith b1 b2 b3 :
  b1 < 256 -> b2 < 256 -> b3 < 256 ->
  let s1 := N.shiftr b1 2 in
  let s2 := N.lor (N.shiftl (N.land b1 3) 4) (N.shiftr b2 4) in
  let s3 := N.lor (N.shiftl (N.land b2 15) 2) (N.shiftr b3 6) in
  let s4 := N.land b3 63 in
  (s1 < 64 /\ s2 < 64 /\ s3 < 64 /\ s4 < 64) /\
  N.lor (N.shiftl s1 2) (N.shiftr s2 4) = b1 /\
  N.lor (N.shiftl (N.land s2 15) 4) (N.shiftr s3 2) = b2 /\
  N.lor (N.shiftl (N.land s3 3) 6) s4 = b3.
Proof.
  intros H1 H2 H3. cbv zeta.
  change 3 with (N.ones 2). change 15 with (N.ones 4). change 63 with (N.ones 6).
  rewrite !land_low, !N.shiftr_div_pow2.
  rewrite (lor_shiftl_small _ 4 (b2 / 2 ^ 4)) by pow_divlia.
  rewrite (lor_shiftl_small _ 2 (b3 / 2 ^ 6)) by pow_divlia.
  rewrite (lor_shiftl_small _ 2) by pow_divlia.
  rewrite (lor_shiftl_small _ 4) by pow_divlia.
  rewrite (lor_shiftl_small _ 6) by pow_divlia.
  change (2 ^ 2) with 4; change (2 ^ 4) with 16; change (2 ^ 6) with 64.
  repeat split.
  all: divlia.
Qed.

Lemma decode_encode bytes :
  Forall (fun b => b < 256) bytes ->
  Base64.decode (Base64.encode bytes) = Some bytes.
Proof.
  induction bytes as [|b1|b1 b2|b1 b2 b3 rest IH] using list_ind3; intros Hb.
  - reflexivity.
  - apply Forall_cons in Hb as [H1 _].
    destruct (sextet_arith b1 0 0 H1) as ((S1 & S2 & _ & _) & E1 & _ & _); [lia..|].
    cbv zeta in *. change (N.shiftr 0 4) with 0 in *. rewrite N.lor_0_r in *.
    cbn [Base64.encode Base64.decode].
    destruct (digit_value _ S1) as [-> _], (digit_value _ S2) as [-> _].
    cbn [mbind option_bind]. change (Base64.pad =? Base64.pad) with true.
    cbv iota. by rewrite E1.
  - apply Forall_cons in Hb as [H1 [H2 _]%Forall_cons].
    destruct (sextet_arith b1 b2 0 H1 H2) as ((S1 & S2 & S3 & _) & E1 & E2 & _); [lia|].
    cbv zeta in *. change (N.shiftr 0 6) with 0 in *. rewrite N.lor_0_r in *.
    cbn [Base64.encode Base64.decode].
    destruct (digit_value _ S1) as [-> _], (digit_value _ S2) as [-> _],
      (digit_value _ S3) as [-> ->].
    cbn [mbind option_bind]. change (Base64.pad =? Base64.pad) with true.
    cbv iota. by rewrite E1, E2.
  - apply Forall_cons in Hb as [H1 [H2 [H3 Hrest]%Forall_cons]%Forall_cons].
    destruct (sextet_arith b1 b2 b3 H1 H2 H3) as ((S1 & S2 & S3 & S4) & E1 & E2 & E3).
    cbv zeta in *.
    cbn [Base64.encode Base64.decode].
    destruct (digit_value _ S1) as [-> _], (digit_value _ S2) as [-> _],
      (digit_value _ S3) as [-> _], (digit_value _ S4) as [-> ->].
    rewrite (IH Hrest).
    cbn [mbind option_bind]. by rewrite E1, E2, E3.
Qed.

Lemma from_binary_bytes s : Forall (fun b => b < 256) (Buffer.from_binary s).
Proof.
  unfold Buffer.from_binary. apply Forall_fmap, Forall_forall. intros c _. simpl.
  change 255 with (N.ones 8). rewrite land_low. apply N.mod_lt. done.
Qed.

Lemma from_binary_latin1 s :
  Forall (fun c => c < 256) s -> Buffer.from_binary s = s.
Proof.
  unfold Buffer.from_binary. induction 1 as [|c s Hc _ IH]; [done|].
  rewrite fmap_cons, IH. f_equal.
  change 255 with (N.ones 8). rewrite land_low. by apply N.mod_small.
Qed.

End Base64Facts.

(** ** Facts about the configuration lookups *)

Section ConfigFacts.

Import ConfigReader DefaultJenkinsInfoProvider.

Lemma truthy_nonempty s : JS.truthy s = true <-> s <> [].
Proof. destruct s; simpl; split; congruence. Qed.

Lemma strict_eq_true a b : JS.strict_eq a b = true <-> a = b.
Proof. unfold JS.strict_eq. apply bool_decide_eq_true. Qed.

Lemma getString_Ok c key s :
  getString c key = Ok s <-> strings c !! key = Some s /\ s <> [].
Proof.
  unfold getString. destruct (strings c !! key) as [t|]; [|naive_solver].
  destruct t; simpl; naive_solver.
Qed.

Lemma getString_Err c key e :
  getString c key = Err e -> e = ConfigFieldMissing key.
Proof.
  unfold getString. destruct (strings c !! key) as [[|? ?]|]; simpl; congruence.
Qed.

Lemma nameless_Err c :
  nameless c <-> getString c (JS.lit "name") = Err (ConfigFieldMissing (JS.lit "name")).
Proof.
  unfold nameless, getString.
  destruct (strings c !! JS.lit "name") as [[|? ?]|]; simpl; naive_solver.
Qed.

Lemma named_or_nameless c : named c \/ nameless c.
Proof.
  unfold named. destruct (getString c (JS.lit "name")) as [n|e] eqn:E; [eauto|].
  right. apply nameless_Err. by rewrite (getString_Err _ _ _ E) in E.
Qed.

Lemma named_not_nameless c : named c -> ~ nameless c.
Proof. intros [n Hn] Hc%nameless_Err. congruence. Qed.

Lemma nameIs_entryNamed wanted c : nameIs wanted c = true <-> entryNamed wanted c.
Proof.
  unfold nameIs, entryNamed. destruct (getString c (JS.lit "name")) as [n|e].
  - rewrite strict_eq_true. naive_solver.
  - naive_solver.
Qed.

Lemma fieldPresent_truthy c key :
  JS.truthy_opt (getOptionalString c key) = true <-> fieldPresent c key.
Proof.
  unfold fieldPresent. destruct (getOptionalString c key) as [s|]; simpl.
  - rewrite truthy_nonempty. naive_solver.
  - naive_solver.
Qed.

(** The filter reads every name: it answers when all of them can be read,
    and then keeps the entries of the wanted name in array order. *)
Lemma filterByName_named wanted cs :
  Forall named cs ->
  filterByName wanted cs = Ok (filter (fun c => nameIs wanted c) cs).
Proof.
  induction 1 as [|c cs [n Hn] _ IH]; [done|].
  cbn [filterByName]. rewrite Hn, IH. cbn [mbind Result_bind].
  rewrite filter_cons.
  assert (Hc : nameIs wanted c = JS.strict_eq n wanted)
    by (unfold nameIs; by rewrite Hn).
  rewrite Hc.
  by destruct (JS.strict_eq n wanted).
Qed.

Lemma filterByName_nameless wanted cs :
  Exists nameless cs ->
  filterByName wanted cs = Err (ConfigFieldMissing (JS.lit "name")).
Proof.
  induction cs as [|c cs IH]; intros Hex; [by apply Exists_nil in Hex|].
  cbn [filterByName].
  destruct (named_or_nameless c) as [[n Hn]|Hc].
  - apply Exists_cons in Hex as [Hc|Hex].
    { by apply named_not_nameless in Hc; [|exists n]. }
    rewrite Hn, (IH Hex). reflexivity.
  - apply nameless_Err in Hc. rewrite Hc. reflexivity.
Qed.

Lemma all_named_or_some_nameless cs : Forall named cs \/ Exists nameless cs.
Proof.
  induction cs as [|c cs [IH|IH]].
  - left. constructor.
  - destruct (named_or_nameless c); [left|right]; by constructor.
  - right. by constructor 2.
Qed.

Lemma filterByName_Ok wanted cs kept :
  filterByName wanted cs = Ok kept ->
  Forall named cs /\ kept = filter (fun c => nameIs wanted c) cs.
Proof.
  intros H. destruct (all_named_or_some_nameless cs) as [Hall|Hex].
  - rewrite (filterByName_named _ _ Hall) in H. naive_solver.
  - rewrite (filterByName_nameless _ _ Hex) in H. done.
Qed.

Lemma filterByName_error wanted cs e :
  filterByName wanted cs = Err e -> e = ConfigFieldMissing (JS.lit "name").
Proof.
  intros H. destruct (all_named_or_some_nameless cs) as [Hall|Hex].
  - rewrite (filterByName_named _ _ Hall) in H. done.
  - rewrite (filterByName_nameless _ _ Hex) in H. congruence.
Qed.

(** The head of a filtered list is the earliest element that passes. *)
Lemma head_filter_Some {A} (P : A -> Prop) `{!forall x, Decision (P x)} l x :
  head (filter P l) = Some x <->
  exists l1 l2, l = l1 ++ x :: l2 /\ P x /\ Forall (fun y => ~ P y) l1.
Proof.
  induction l as [|y l IH].
  - split; [done|]. intros (l1 & l2 & E & _). by destruct l1.
  - rewrite filter_cons. destruct (decide (P y)) as [Hy|Hy].
    + simpl. split.
      * intros [= ->]. exists [], l. by repeat split.
      * intros (l1 & l2 & E & Hx & Hl1). destruct l1 as [|z l1].
        -- by injection E as -> _.
        -- injection E as -> _. by apply Forall_cons in Hl1 as [? _].
    + rewrite IH. split.
      * intros (l1 & l2 & -> & Hx & Hl1). exists (y :: l1), l2.
        repeat split; [done|]. by constructor.
      * intros (l1 & l2 & E & Hx & Hl1). destruct l1 as [|z l1].
        -- injection E as -> _. done.
        -- injection E as -> ->. apply Forall_cons in Hl1 as [_ Hl1]. eauto.
Qed.

Lemma head_filter_None {A} (P : A -> Prop) `{!forall x, Decision (P x)} l :
  head (filter P l) = None <-> Forall (fun y => ~ P y) l.
Proof.
  induction l as [|y l IH]; [by split; [constructor|]|].
  rewrite filter_cons, Forall_cons. destruct (decide (P y)); simpl; naive_solver.
Qed.

End ConfigFacts.

(** ** Resolution of the instance settings *)

Section Resolution.

Import ConfigReader DefaultJenkinsInfoProvider.

Lemma lookupPath_default jenkinsName :
  jenkinsName = None \/ jenkinsName = Some DEFAULT_JENKINS_NAME ->
  lookupPath jenkinsName = DefaultInstanceLookup.
Proof. intros [->| ->]; reflexivity. Qed.

Lemma lookupPath_named n :
  n <> [] -> n <> DEFAULT_JENKINS_NAME ->
  lookupPath (Some n) = NamedInstanceLookup n.
Proof.
  intros Hn Hd. unfold lookupPath.
  apply truthy_nonempty in Hn as ->.
  destruct (JS.strict_eq n DEFAULT_JENKINS_NAME) eqn:E; [|done].
  by apply strict_eq_true in E.
Qed.

Lemma getInstanceConfig_path jenkinsName rootConfig jenkinsConfig :
  getConfig rootConfig (JS.lit "jenkins") = Ok jenkinsConfig ->
  getInstanceConfig jenkinsName rootConfig =
  match lookupPath jenkinsName with
  | DefaultInstanceLookup => defaultInstanceLookup jenkinsConfig
  | NamedInstanceLookup n => namedInstanceLookup n jenkinsConfig
  end.
Proof. intros H. unfold getInstanceConfig. by rewrite H. Qed.

Lemma flatSettings_test jenkinsConfig :
  negb (JS.truthy_opt (getOptionalString jenkinsConfig (JS.lit "baseUrl")))
  || negb (JS.truthy_opt (getOptionalString jenkinsConfig (JS.lit "username")))
  || negb (JS.truthy_opt (getOptionalString jenkinsConfig (JS.lit "apiKey"))) = false
  <-> flatSettingsPresent jenkinsConfig.
Proof.
  unfold flatSettingsPresent. rewrite <- !fieldPresent_truthy.
  destruct (JS.truthy_opt _), (JS.truthy_opt _), (JS.truthy_opt _); simpl; naive_solver.
Qed.

Lemma Exists_entryNamed_filter wanted cs :
  Exists (entryNamed wanted) cs <->
  exists c, head (filter (fun c => nameIs wanted c) cs) = Some c.
Proof.
  split.
  - intros Hex. destruct (head _) as [c|] eqn:E; [eauto|].
    apply head_filter_None in E. apply Exists_exists in Hex as (c & Hc & Hn).
    rewrite Forall_forall in E. destruct (E c Hc).
    by apply Is_true_true, nameIs_entryNamed.
  - intros (c & (l1 & l2 & -> & Hc & _)%head_filter_Some).
    apply Exists_app. right. left.
    by apply nameIs_entryNamed, Is_true_true.
Qed.

(** What a match of the filter is: the earliest entry of the wanted name. *)
Lemma head_filter_entry wanted cs c :
  head (filter (fun c => nameIs wanted c) cs) = Some c <->
  exists l1 l2, cs = l1 ++ c :: l2 /\ entryNamed wanted c /\
                Forall (fun e => ~ entryNamed wanted e) l1.
Proof.
  rewrite head_filter_Some. do 2 (apply exist_proper; intros ?).
  rewrite <- nameIs_entryNamed, Is_true_true.
  apply and_iff_compat_l, and_iff_compat_l, Forall_proper; [|done].
  intros e. by rewrite <- nameIs_entryNamed, Is_true_true.
Qed.

Lemma defaultInstanceLookup_named jenkinsConfig :
  Forall named (getConfigArray jenkinsConfig (JS.lit "instances")) ->
  defaultInstanceLookup jenkinsConfig =
  match head (filter (fun c => nameIs DEFAULT_JENKINS_NAME c)
                (getConfigArray jenkinsConfig (JS.lit "instances"))) with
  | Some c => Ok c
  | None =>
      if negb (JS.truthy_opt (getOptionalString jenkinsConfig (JS.lit "baseUrl")))
         || negb (JS.truthy_opt (getOptionalString jenkinsConfig (JS.lit "username")))
         || negb (JS.truthy_opt (getOptionalString jenkinsConfig (JS.lit "apiKey")))
      then Err NoDefaultInstance
      else Ok jenkinsConfig
  end.
Proof.
  intros Hall. unfold defaultInstanceLookup.
  rewrite (filterByName_named _ _ Hall). reflexivity.
Qed.

Lemma namedInstanceLookup_named n jenkinsConfig :
  Forall named (getConfigArray jenkinsConfig (JS.lit "instances")) ->
  namedInstanceLookup n jenkinsConfig =
  match head (filter (fun c => nameIs n c)
                (getConfigArray jenkinsConfig (JS.lit "instances"))) with
  | Some c => Ok c
  | None => Err (NamedInstanceNotFound n)
  end.
Proof.
  intros Hall. unfold namedInstanceLookup.
  rewrite (filterByName_named _ _ Hall). reflexivity.
Qed.

Lemma lookup_nameless jenkinsName rootConfig jenkinsConfig :
  getConfig rootConfig (JS.lit "jenkins") = Ok jenkinsConfig ->
  Exists nameless (getConfigArray jenkinsConfig (JS.lit "instances")) ->
  getInstanceConfig jenkinsName rootConfig =
  Err (ConfigFieldMissing (JS.lit "name")).
Proof.
  intros Hj Hex. rewrite (getInstanceConfig_path _ _ _ Hj).
  destruct (lookupPath jenkinsName);
    unfold defaultInstanceLookup, namedInstanceLookup;
    by rewrite (filterByName_nameless _ _ Hex).
Qed.

End Resolution.

(** ** Facts about the annotation and the credentials *)

Section AnnotationFacts.

Import ConfigReader DefaultJenkinsInfoProvider.

Lemma count_colon_absent (v : list N) :
  count_occ N.eq_dec v colon = 0%nat <-> colon ∉ v.
Proof.
  rewrite list_elem_of_In. symmetry. apply count_occ_not_In.
Qed.

Lemma annotationValue_Some entity key v :
  annotationValue entity key = Some v <->
  annotation entity key = Some v /\ v <> [].
Proof.
  unfold annotationValue.
  destruct (annotation entity key) as [[|c w]|]; naive_solver.
Qed.

Lemma annotationValue_None entity key :
  annotationValue entity key = None <->
  JS.truthy_opt (annotation entity key) = false.
Proof.
  unfold annotationValue.
  destruct (annotation entity key) as [[|c w]|]; naive_solver.
Qed.

Lemma getEntityAnnotationValue_legacy entity v :
  annotationValue entity OLD_JENKINS_ANNOTATION = Some v ->
  getEntityAnnotationValue entity = Some v.
Proof.
  intros [Ha Hv]%annotationValue_Some.
  unfold getEntityAnnotationValue, JS.or_else. rewrite Ha. simpl.
  by apply truthy_nonempty in Hv as ->.
Qed.

Lemma getEntityAnnotationValue_current entity :
  annotationValue entity OLD_JENKINS_ANNOTATION = None ->
  getEntityAnnotationValue entity = annotation entity NEW_JENKINS_ANNOTATION.
Proof.
  intros Ha%annotationValue_None.
  unfold getEntityAnnotationValue, JS.or_else. by rewrite Ha.
Qed.

Lemma getInstance_fetched catalog config opt entity :
  catalog (opt_entityRef opt) = Ok (Some entity) ->
  getInstance catalog config opt =
  match getEntityAnnotationValue entity with
  | Some v =>
      if negb (JS.truthy v) then Err (AnnotationMissing (opt_entityRef opt))
      else infoFromAnnotation config v
  | None => Err (AnnotationMissing (opt_entityRef opt))
  end.
Proof. intros H. unfold getInstance. by rewrite H. Qed.

Lemma getInstance_annotated catalog config opt entity v :
  catalog (opt_entityRef opt) = Ok (Some entity) ->
  getEntityAnnotationValue entity = Some v -> v <> [] ->
  getInstance catalog config opt = infoFromAnnotation config v.
Proof.
  intros Hc Hv Hne. rewrite (getInstance_fetched _ _ _ _ Hc), Hv.
  by apply truthy_nonempty in Hne as ->.
Qed.

Lemma getInstanceConfig_error jenkinsName rootConfig e :
  getInstanceConfig jenkinsName rootConfig = Err e ->
  forall r, e <> AnnotationMissing r.
Proof.
  unfold getInstanceConfig, getConfig.
  destruct (children rootConfig !! JS.lit "jenkins") as [jc|];
    cbn [mbind Result_bind]; [|by intros [= <-]].
  destruct (lookupPath jenkinsName) as [|n];
    unfold defaultInstanceLookup, namedInstanceLookup;
    (destruct (filterByName _ _) as [kept|e'] eqn:F; cbn [mbind Result_bind];
     [|intros [= <-]; apply filterByName_error in F as ->; done]).
  - destruct (head kept); [done|]. destruct (_ || _); [by intros [= <-]|done].
  - destruct (head kept); [done|]. by intros [= <-].
Qed.

Lemma infoFromAnnotation_error config v e :
  infoFromAnnotation config v = Err e -> forall r, e <> AnnotationMissing r.
Proof.
  unfold infoFromAnnotation. destruct (splitJenkinsAndJobName v) as [jn job].
  destruct (getInstanceConfig jn config) as [c|e'] eqn:Hc; cbn [mbind Result_bind].
  2:{ intros [= <-]. by apply (getInstanceConfig_error _ _ _ Hc). }
  destruct (getString c (JS.lit "baseUrl")) as [b|e'] eqn:Hb; cbn [mbind Result_bind].
  2:{ intros [= <-]. by apply getString_Err in Hb as ->. }
  destruct (getString c (JS.lit "username")) as [u|e'] eqn:Hu; cbn [mbind Result_bind].
  2:{ intros [= <-]. by apply getString_Err in Hu as ->. }
  destruct (getString c (JS.lit "apiKey")) as [k|e'] eqn:Hk; cbn [mbind Result_bind].
  2:{ intros [= <-]. by apply getString_Err in Hk as ->. }
  done.
Qed.

Lemma splitAtFirstColon_first a b :
  (colon ∉ a) -> splitAtFirstColon (a ++ colon :: b) = Some (a, b).
Proof.
  intros Ha. pose proof (split_first_colon a b Ha) as H.
  unfold splitJenkinsAndJobName in H. unfold splitAtFirstColon.
  destruct (_ =? -1); [done|]. by injection H as -> ->.
Qed.

(** Reading the credentials back from what line 121 encodes. *)
Lemma credentials_round_trip username apiKey :
  Forall (fun c => (c < 256)%N) username ->
  Forall (fun c => (c < 256)%N) apiKey ->
  (colon ∉ username) ->
  exists bytes,
    Base64.decode
      (Base64.encode (Buffer.from_binary (username ++ JS.lit ":" ++ apiKey)))
      = Some bytes /\
    splitAtFirstColon (Buffer.to_binary bytes) = Some (username, apiKey).
Proof.
  intros Hu Hk Hc. exists (username ++ colon :: apiKey).
  assert (Hall : Forall (fun c => (c < 256)%N) (username ++ JS.lit ":" ++ apiKey)).
  { apply Forall_app. split; [done|]. by constructor. }
  rewrite (from_binary_latin1 _ Hall), (decode_encode _ Hall).
  split; [done|]. by apply splitAtFirstColon_first.
Qed.

End AnnotationFacts.

(** ** The statements on the instance lookup *)

Section InstanceLookupClaims.

Import ConfigReader DefaultJenkinsInfoProvider.

(** C1 (as amended). When the parsed instance identity is absent or is
    "default" and every entry of the array under jenkins.instances has a
    name that can be read, the settings are resolved in this order: if the
    array has an entry named "default", an entry of the array with that name
    is returned; otherwise, if the jenkins node has non-empty baseUrl,
    username and apiKey, the jenkins node itself is returned; otherwise the
    call fails with NoDefaultInstance. *)
Theorem default_instance_resolution
    (rootConfig jenkinsConfig : Config) (jenkinsName : option (list N)) :
  getConfig rootConfig (JS.lit "jenkins") = Ok jenkinsConfig ->
  jenkinsName = None \/ jenkinsName = Some DEFAULT_JENKINS_NAME ->
  Forall named (getConfigArray jenkinsConfig (JS.lit "instances")) ->
  let instances := getConfigArray jenkinsConfig (JS.lit "instances") in
  let hasDefault := Exists (entryNamed DEFAULT_JENKINS_NAME) instances in
  (hasDefault ->
     exists c, getInstanceConfig jenkinsName rootConfig = Ok c /\
               c ∈ instances /\ entryNamed DEFAULT_JENKINS_NAME c) /\
  (~ hasDefault -> flatSettingsPresent jenkinsConfig ->
     getInstanceConfig jenkinsName rootConfig = Ok jenkinsConfig) /\
  (~ hasDefault -> ~ flatSettingsPresent jenkinsConfig ->
     getInstanceConfig jenkinsName rootConfig = Err NoDefaultInstance).
Proof.
  intros Hj Hname Hall instances hasDefault.
  rewrite (getInstanceConfig_path _ _ _ Hj), (lookupPath_default _ Hname).
  rewrite (defaultInstanceLookup_named _ Hall). fold instances.
  subst hasDefault. rewrite Exists_entryNamed_filter.
  destruct (head _) as [c|] eqn:E.
  - split; [|split]; [|intros []; eauto..].
    intros _. exists c. split; [done|].
    apply head_filter_entry in E as (l1 & l2 & -> & Hc & _).
    split; [|done]. apply elem_of_app. right. left.
  - split; [by intros [c ?]|].
    destruct (_ || _) eqn:F.
    + split; intros _ Hflat; [|done].
      apply flatSettings_test in Hflat. congruence.
    + split; intros _ Hflat; [done|].
      by apply flatSettings_test in F.
Qed.

(** An array with a default entry, and an array without one next to flat
    settings. *)
Lemma default_instance_resolution_witness :
  getInstanceConfig None
    (Sample.rootOf (Sample.jenkinsNode Sample.flatSettings
                      [Sample.teamEntry; Sample.defaultEntry]))
  = Ok Sample.defaultEntry
  /\ getInstanceConfig (Some DEFAULT_JENKINS_NAME)
       (Sample.rootOf (Sample.jenkinsNode Sample.flatSettings [Sample.teamEntry]))
     = Ok (Sample.jenkinsNode Sample.flatSettings [Sample.teamEntry]).
Proof.
  split.
  - destruct (default_instance_resolution
                (Sample.rootOf (Sample.jenkinsNode Sample.flatSettings
                                  [Sample.teamEntry; Sample.defaultEntry]))
                (Sample.jenkinsNode Sample.flatSettings
                   [Sample.teamEntry; Sample.defaultEntry])
                None) as [H _].
    + vm_compute. reflexivity.
    + left. reflexivity.
    + repeat constructor; eexists; vm_compute; reflexivity.
    + destruct H as (c & -> & Hin & Hc).
      * right. left. vm_compute. reflexivity.
      * f_equal.
        apply elem_of_cons in Hin as [->|Hin]; [vm_compute in Hc; discriminate|].
        apply elem_of_cons in Hin as [->|Hin]; [reflexivity|].
        by apply elem_of_nil in Hin.
  - apply (default_instance_resolution
             (Sample.rootOf (Sample.jenkinsNode Sample.flatSettings [Sample.teamEntry]))
             (Sample.jenkinsNode Sample.flatSettings [Sample.teamEntry])
             (Some DEFAULT_JENKINS_NAME)).
    + vm_compute. reflexivity.
    + right. reflexivity.
    + repeat constructor; eexists; vm_compute; reflexivity.
    + intros [Hc|Hc]%Exists_cons; [vm_compute in Hc; discriminate|].
      by apply Exists_nil in Hc.
    + repeat split; eexists; (split; [vm_compute; reflexivity|discriminate]).
Defined.

(** The array holds the default entry and an entry without a name: the call
    fails on the name and the default entry is not returned. *)
Lemma default_entry_lost_to_anonymous_sibling :
  let jenkinsConfig :=
    Sample.jenkinsNode [] [Sample.defaultEntry; Sample.anonymousEntry] in
  getConfig (Sample.rootOf jenkinsConfig) (JS.lit "jenkins") = Ok jenkinsConfig /\
  Sample.defaultEntry ∈ getConfigArray jenkinsConfig (JS.lit "instances") /\
  strings Sample.defaultEntry !! JS.lit "name" = Some (JS.lit "default") /\
  getInstanceConfig None (Sample.rootOf jenkinsConfig)
    = Err (ConfigFieldMissing (JS.lit "name")) /\
  getInstanceConfig None (Sample.rootOf jenkinsConfig) <> Ok Sample.defaultEntry.
Proof.
  cbv zeta. split; [vm_compute; reflexivity|].
  split; [left|]. split; [vm_compute; reflexivity|].
  assert (E : getInstanceConfig None
                (Sample.rootOf (Sample.jenkinsNode []
                   [Sample.defaultEntry; Sample.anonymousEntry]))
              = Err (ConfigFieldMissing (JS.lit "name")))
    by (vm_compute; reflexivity).
  split; [exact E|]. rewrite E. discriminate.
Qed.


(** C2 (as amended). When the parsed instance identity is present, not empty
    and not "default", and every entry of the array under jenkins.instances
    has a name that can be read, the lookup returns an entry of the array of
    that name if there is one, and it fails with NamedInstanceNotFound,
    carrying the identity, if and only if no entry has that name. *)
Theorem named_instance_resolution
    (rootConfig jenkinsConfig : Config) (identity : list N) :
  getConfig rootConfig (JS.lit "jenkins") = Ok jenkinsConfig ->
  identity <> [] ->
  identity <> DEFAULT_JENKINS_NAME ->
  Forall named (getConfigArray jenkinsConfig (JS.lit "instances")) ->
  let instances := getConfigArray jenkinsConfig (JS.lit "instances") in
  (Exists (entryNamed identity) instances ->
     exists c, getInstanceConfig (Some identity) rootConfig = Ok c /\
               c ∈ instances /\ entryNamed identity c) /\
  (getInstanceConfig (Some identity) rootConfig
     = Err (NamedInstanceNotFound identity)
   <-> ~ Exists (entryNamed identity) instances).
Proof.
  intros Hj Hne Hnd Hall instances.
  rewrite (getInstanceConfig_path _ _ _ Hj), (lookupPath_named _ Hne Hnd).
  rewrite (namedInstanceLookup_named _ _ Hall). fold instances.
  rewrite Exists_entryNamed_filter.
  destruct (head _) as [c|] eqn:E.
  - split.
    + intros _. exists c. split; [done|].
      apply head_filter_entry in E as (l1 & l2 & -> & Hc & _).
      split; [|done]. apply elem_of_app. right. left.
    + split; [done|]. intros []. eauto.
  - split; [by intros [c ?]|]. split; [|done]. by intros _ [c ?].
Qed.

(** A name that is in the array, and one that is not. *)
Lemma named_instance_resolution_witness :
  getInstanceConfig (Some (JS.lit "team-1"))
    (Sample.rootOf (Sample.jenkinsNode [] [Sample.defaultEntry; Sample.teamEntry]))
  = Ok Sample.teamEntry
  /\ getInstanceConfig (Some (JS.lit "team-2"))
       (Sample.rootOf (Sample.jenkinsNode [] [Sample.defaultEntry; Sample.teamEntry]))
     = Err (NamedInstanceNotFound (JS.lit "team-2")).
Proof.
  assert (Hj : getConfig
                 (Sample.rootOf (Sample.jenkinsNode []
                                   [Sample.defaultEntry; Sample.teamEntry]))
                 (JS.lit "jenkins")
               = Ok (Sample.jenkinsNode [] [Sample.defaultEntry; Sample.teamEntry]))
    by (vm_compute; reflexivity).
  assert (Hall : Forall named
                   (getConfigArray
                      (Sample.jenkinsNode [] [Sample.defaultEntry; Sample.teamEntry])
                      (JS.lit "instances")))
    by (repeat constructor; eexists; vm_compute; reflexivity).
  split.
  - destruct (named_instance_resolution _ _ (JS.lit "team-1") Hj) as [H _];
      [discriminate|discriminate|exact Hall|].
    destruct H as (c & -> & Hin & Hc).
    + right. left. vm_compute. reflexivity.
    + f_equal.
      apply elem_of_cons in Hin as [->|Hin]; [vm_compute in Hc; discriminate|].
      apply elem_of_cons in Hin as [->|Hin]; [reflexivity|].
      by apply elem_of_nil in Hin.
  - apply (named_instance_resolution _ _ (JS.lit "team-2") Hj);
      [discriminate|discriminate|exact Hall|].
    intros [Hc|[Hc|Hc]%Exists_cons]%Exists_cons;
      [vm_compute in Hc; discriminate..|by apply Exists_nil in Hc].
Defined.

(** The annotation ":job" has the empty identity, which takes the default
    lookup; and an entry without a name hides the entry that matches. *)
Lemma empty_identity_and_anonymous_entry :
  let jenkinsConfig := Sample.jenkinsNode [] [Sample.defaultEntry] in
  let withAnonymous :=
    Sample.jenkinsNode [] [Sample.anonymousEntry; Sample.teamEntry] in
  (splitJenkinsAndJobName (JS.lit ":job") = (Some [], JS.lit "job") /\
   [] <> DEFAULT_JENKINS_NAME /\
   ~ Exists (entryNamed []) (getConfigArray jenkinsConfig (JS.lit "instances")) /\
   getInstanceConfig (Some []) (Sample.rootOf jenkinsConfig)
     = Ok Sample.defaultEntry) /\
  (Sample.teamEntry ∈ getConfigArray withAnonymous (JS.lit "instances") /\
   entryNamed (JS.lit "team-1") Sample.teamEntry /\
   getInstanceConfig (Some (JS.lit "team-1")) (Sample.rootOf withAnonymous)
     = Err (ConfigFieldMissing (JS.lit "name"))).
Proof.
  cbv zeta. split.
  - split; [vm_compute; reflexivity|]. split; [discriminate|].
    split; [|vm_compute; reflexivity].
    intros [Hc|Hc]%Exists_cons; [vm_compute in Hc; discriminate|].
    by apply Exists_nil in Hc.
  - split; [right; left|]. split; vm_compute; reflexivity.
Qed.

(** C9 (as amended). When every entry of the array under jenkins.instances
    has a name that can be read and the array holds entries of the looked-up
    name ("default" or the requested identity), however many, the earliest of
    them in array order is the one returned, and getInstance takes baseUrl,
    username and apiKey from it: when the three can be read, the result has
    the baseUrl of that entry and the header made of its username and apiKey,
    and when one of them cannot, the call fails on it. *)
Theorem earliest_match_returned
    (rootConfig jenkinsConfig : Config) (jenkinsName : option (list N))
    (before after : list Config) (c : Config) :
  getConfig rootConfig (JS.lit "jenkins") = Ok jenkinsConfig ->
  getConfigArray jenkinsConfig (JS.lit "instances") = before ++ c :: after ->
  Forall named (before ++ c :: after) ->
  entryNamed (lookedUpName jenkinsName) c ->
  Forall (fun e => ~ entryNamed (lookedUpName jenkinsName) e) before ->
  getInstanceConfig jenkinsName rootConfig = Ok c /\
  (forall (catalog : CatalogClient) (opt : GetInstanceOptions)
          (entity : Entity) (v : list N),
     catalog (opt_entityRef opt) = Ok (Some entity) ->
     getEntityAnnotationValue entity = Some v ->
     v <> [] ->
     (splitJenkinsAndJobName v).1 = jenkinsName ->
     getInstance catalog rootConfig opt =
     match getString c (JS.lit "baseUrl"),
           getString c (JS.lit "username"),
           getString c (JS.lit "apiKey") with
     | Ok b, Ok u, Ok k =>
         Ok {| baseUrl := b;
               headers :=
                 Some {[ JS.lit "Authorization" :=
                           JS.lit "Basic "
                           ++ Base64.encode
                                ((fun x => N.land x 255) <$> (u ++ [colon] ++ k)) ]};
               jobName := (splitJenkinsAndJobName v).2 |}
     | Err e, _, _ => Err e
     | Ok _, Err e, _ => Err e
     | Ok _, Ok _, Err e => Err e
     end).
Proof.
  intros Hj Harr Hall Hc Hbefore.
  assert (Hok : getInstanceConfig jenkinsName rootConfig = Ok c).
  { rewrite <- Harr in Hall.
    assert (Hhead : head (filter (fun e => nameIs (lookedUpName jenkinsName) e)
                            (getConfigArray jenkinsConfig (JS.lit "instances")))
                    = Some c).
    { apply head_filter_entry. exists before, after. by rewrite Harr. }
    rewrite (getInstanceConfig_path _ _ _ Hj). unfold lookedUpName in Hhead.
    destruct (lookupPath jenkinsName) as [|n].
    - rewrite (defaultInstanceLookup_named _ Hall). by rewrite Hhead.
    - rewrite (namedInstanceLookup_named _ _ Hall). by rewrite Hhead. }
  split; [exact Hok|].
  intros catalog opt entity v Hcat Hv Hne Hs.
  rewrite (getInstance_annotated _ _ _ _ _ Hcat Hv Hne).
  unfold infoFromAnnotation.
  destruct (splitJenkinsAndJobName v) as [jn job]. cbn [fst snd] in *. subst jn.
  rewrite Hok. cbn [mbind Result_bind].
  destruct (getString c (JS.lit "baseUrl")) as [b|]; [|done].
  destruct (getString c (JS.lit "username")) as [u|]; [|done].
  destruct (getString c (JS.lit "apiKey")) as [k|]; done.
Qed.

(** Two entries named "team-1": the lookup returns the first one, and the
    result of getInstance has its baseUrl and its credentials "t" and "s". *)
Lemma earliest_match_returned_witness :
  getInstanceConfig (Some (JS.lit "team-1"))
    (Sample.rootOf
       (Sample.jenkinsNode []
          [Sample.defaultEntry; Sample.teamEntry; Sample.secondTeamEntry]))
  = Ok Sample.teamEntry
  /\ getInstance
       (Sample.catalogOf (Sample.entityOf [("jenkins.io/job-slug", "team-1:proj-foo")]))
       (Sample.rootOf
          (Sample.jenkinsNode []
             [Sample.defaultEntry; Sample.teamEntry; Sample.secondTeamEntry]))
       (Sample.options None)
     = Ok {| baseUrl := JS.lit "https://team.example/";
             headers := Some {[ JS.lit "Authorization" := JS.lit "Basic dDpz" ]};
             jobName := JS.lit "proj-foo" |}
  /\ getInstanceConfig None
       (Sample.rootOf
          (Sample.jenkinsNode Sample.flatSettings
             [Sample.teamEntry; Sample.defaultEntry; Sample.secondDefaultEntry]))
     = Ok Sample.defaultEntry.
Proof.
  assert (Hdefault :
            getInstanceConfig None
              (Sample.rootOf
                 (Sample.jenkinsNode Sample.flatSettings
                    [Sample.teamEntry; Sample.defaultEntry; Sample.secondDefaultEntry]))
            = Ok Sample.defaultEntry).
  { apply (earliest_match_returned
             (Sample.rootOf
                (Sample.jenkinsNode Sample.flatSettings
                   [Sample.teamEntry; Sample.defaultEntry; Sample.secondDefaultEntry]))
             (Sample.jenkinsNode Sample.flatSettings
                [Sample.teamEntry; Sample.defaultEntry; Sample.secondDefaultEntry])
             None
             [Sample.teamEntry] [Sample.secondDefaultEntry] Sample.defaultEntry).
    - vm_compute. reflexivity.
    - vm_compute. reflexivity.
    - repeat constructor; eexists; vm_compute; reflexivity.
    - vm_compute. reflexivity.
    - repeat constructor. vm_compute. discriminate. }
  destruct (earliest_match_returned
              (Sample.rootOf
                 (Sample.jenkinsNode []
                    [Sample.defaultEntry; Sample.teamEntry; Sample.secondTeamEntry]))
              (Sample.jenkinsNode []
                 [Sample.defaultEntry; Sample.teamEntry; Sample.secondTeamEntry])
              (Some (JS.lit "team-1"))
              [Sample.defaultEntry] [Sample.secondTeamEntry] Sample.teamEntry)
    as [Hlookup Hcall].
  - vm_compute. reflexivity.
  - vm_compute. reflexivity.
  - repeat constructor; eexists; vm_compute; reflexivity.
  - vm_compute. reflexivity.
  - repeat constructor. vm_compute. discriminate.
  - split; [exact Hlookup|]. split; [|exact Hdefault].
    rewrite (Hcall
               (Sample.catalogOf
                  (Sample.entityOf [("jenkins.io/job-slug", "team-1:proj-foo")]))
               (Sample.options None)
               (Sample.entityOf [("jenkins.io/job-slug", "team-1:proj-foo")])
               (JS.lit "team-1:proj-foo")).
    + vm_compute. reflexivity.
    + reflexivity.
    + vm_compute. reflexivity.
    + discriminate.
    + vm_compute. reflexivity.
Defined.

(** Two entries named "team-1" followed by an entry without a name: the
    lookup of "team-1" fails on the name and the earliest match is not
    returned. *)
Lemma anonymous_entry_hides_earliest_match :
  let jenkinsConfig :=
    Sample.jenkinsNode []
      [Sample.teamEntry; Sample.secondTeamEntry; Sample.anonymousEntry] in
  getConfigArray jenkinsConfig (JS.lit "instances")
    = [Sample.teamEntry; Sample.secondTeamEntry; Sample.anonymousEntry] /\
  entryNamed (JS.lit "team-1") Sample.teamEntry /\
  entryNamed (JS.lit "team-1") Sample.secondTeamEntry /\
  Sample.teamEntry <> Sample.secondTeamEntry /\
  getInstanceConfig (Some (JS.lit "team-1")) (Sample.rootOf jenkinsConfig)
    = Err (ConfigFieldMissing (JS.lit "name")) /\
  getInstanceConfig (Some (JS.lit "team-1")) (Sample.rootOf jenkinsConfig)
    <> Ok Sample.teamEntry.
Proof.
  cbv zeta. do 3 (split; [vm_compute; reflexivity|]).
  split; [vm_compute; discriminate|].
  assert (E : getInstanceConfig (Some (JS.lit "team-1"))
                (Sample.rootOf
                   (Sample.jenkinsNode []
                      [Sample.teamEntry; Sample.secondTeamEntry;
                       Sample.anonymousEntry]))
              = Err (ConfigFieldMissing (JS.lit "name")))
    by (vm_compute; reflexivity).
  split; [exact E|]. rewrite E. discriminate.
Qed.

(** C10. Both lookups read the name of every entry of the array under
    jenkins.instances as a required string before they return: a lookup
    that returns has read all names, and when any entry has no name, or an
    empty one, the lookup fails on the name, whatever the other entries and
    the looked-up name are. *)
Theorem every_name_is_read
    (rootConfig jenkinsConfig : Config) (jenkinsName : option (list N)) :
  getConfig rootConfig (JS.lit "jenkins") = Ok jenkinsConfig ->
  (Exists nameless (getConfigArray jenkinsConfig (JS.lit "instances")) ->
     getInstanceConfig jenkinsName rootConfig
       = Err (ConfigFieldMissing (JS.lit "name"))) /\
  (forall c, getInstanceConfig jenkinsName rootConfig = Ok c ->
     Forall named (getConfigArray jenkinsConfig (JS.lit "instances"))).
Proof.
  intros Hj. split.
  - apply (lookup_nameless _ _ _ Hj).
  - intros c Hc.
    destruct (all_named_or_some_nameless
                (getConfigArray jenkinsConfig (JS.lit "instances"))) as [Hall|Hex];
      [done|].
    rewrite (lookup_nameless _ _ _ Hj Hex) in Hc. done.
Qed.

(** An entry without a name, and an entry with an empty one, next to an
    entry that matches. *)
Lemma every_name_is_read_witness :
  getInstanceConfig (Some (JS.lit "team-1"))
    (Sample.rootOf
       (Sample.jenkinsNode Sample.flatSettings
          [Sample.teamEntry; Sample.anonymousEntry]))
  = Err (ConfigFieldMissing (JS.lit "name"))
  /\ getInstanceConfig None
       (Sample.rootOf
          (Sample.jenkinsNode Sample.flatSettings
             [Sample.defaultEntry; Sample.entry [("name", EmptyString)]]))
     = Err (ConfigFieldMissing (JS.lit "name")).
Proof.
  split.
  - apply (every_name_is_read
             (Sample.rootOf
                (Sample.jenkinsNode Sample.flatSettings
                   [Sample.teamEntry; Sample.anonymousEntry]))
             (Sample.jenkinsNode Sample.flatSettings
                [Sample.teamEntry; Sample.anonymousEntry])).
    + vm_compute. reflexivity.
    + right. left. left. vm_compute. reflexivity.
  - apply (every_name_is_read
             (Sample.rootOf
                (Sample.jenkinsNode Sample.flatSettings
                   [Sample.defaultEntry; Sample.entry [("name", EmptyString)]]))
             (Sample.jenkinsNode Sample.flatSettings
                [Sample.defaultEntry; Sample.entry [("name", EmptyString)]])).
    + vm_compute. reflexivity.
    + right. left. right. vm_compute. reflexivity.
Defined.

End InstanceLookupClaims.

(** ** The statements on the annotation *)

Section AnnotationClaims.

Import ConfigReader DefaultJenkinsInfoProvider.

(** C5. An annotation value with exactly one colon is split at that colon:
    the identity is the text before it, the job name the text after it, and
    joining them with a colon gives the value back.  A value without a colon
    has no identity and is the job name. *)
Theorem split_at_the_colon (v : list N) :
  (count_occ N.eq_dec v colon = 1%nat ->
     exists instanceIdentity jobName,
       splitJenkinsAndJobName v = (Some instanceIdentity, jobName) /\
       (colon ∉ instanceIdentity) /\ (colon ∉ jobName) /\
       instanceIdentity ++ JS.lit ":" ++ jobName = v) /\
  (count_occ N.eq_dec v colon = 0%nat ->
     splitJenkinsAndJobName v = (None, v)).
Proof.
  split.
  - intros Hone.
    destruct (first_colon_split v) as [Habs|(a & b & -> & Ha)].
    { apply count_colon_absent in Habs. congruence. }
    exists a, b. rewrite (split_first_colon _ _ Ha).
    repeat split; [done|].
    rewrite count_occ_app, count_occ_cons_eq in Hone by done.
    apply count_colon_absent in Ha. apply count_colon_absent. lia.
  - intros Hzero. by apply split_no_colon, count_colon_absent.
Qed.

(** The annotation values of the two scenarios of the specification. *)
Lemma split_at_the_colon_witness :
  (exists instanceIdentity jobName,
     splitJenkinsAndJobName (JS.lit "team-1:proj-foo")
       = (Some instanceIdentity, jobName) /\
     (colon ∉ instanceIdentity) /\ (colon ∉ jobName) /\
     instanceIdentity ++ JS.lit ":" ++ jobName = JS.lit "team-1:proj-foo")
  /\ splitJenkinsAndJobName (JS.lit "proj-bar") = (None, JS.lit "proj-bar").
Proof.
  split.
  - apply (split_at_the_colon (JS.lit "team-1:proj-foo")). vm_compute. reflexivity.
  - apply (split_at_the_colon (JS.lit "proj-bar")). vm_compute. reflexivity.
Defined.


(** C3 (as amended). For the fetched entity, getInstance fails with
    AnnotationMissing if and only if neither jenkins.io/github-folder nor
    jenkins.io/job-slug carries a non-empty value; when one of them does,
    the first non-empty value, the legacy key being looked at first, is the
    one that is parsed. *)
Theorem annotation_missing_iff
    (catalog : CatalogClient) (config : Config) (opt : GetInstanceOptions)
    (entity : Entity) :
  catalog (opt_entityRef opt) = Ok (Some entity) ->
  ((exists r, getInstance catalog config opt = Err (AnnotationMissing r)) <->
     annotationValue entity OLD_JENKINS_ANNOTATION = None /\
     annotationValue entity NEW_JENKINS_ANNOTATION = None) /\
  (forall v, annotationValue entity OLD_JENKINS_ANNOTATION = Some v ->
     getInstance catalog config opt = infoFromAnnotation config v) /\
  (forall v, annotationValue entity OLD_JENKINS_ANNOTATION = None ->
     annotationValue entity NEW_JENKINS_ANNOTATION = Some v ->
     getInstance catalog config opt = infoFromAnnotation config v).
Proof.
  intros Hc.
  assert (Hold : forall v, annotationValue entity OLD_JENKINS_ANNOTATION = Some v ->
            getInstance catalog config opt = infoFromAnnotation config v).
  { intros v Hv. apply (getInstance_annotated _ _ _ entity); [done| |].
    - by apply getEntityAnnotationValue_legacy.
    - by apply annotationValue_Some in Hv as [_ ?]. }
  assert (Hnew : forall v, annotationValue entity OLD_JENKINS_ANNOTATION = None ->
            annotationValue entity NEW_JENKINS_ANNOTATION = Some v ->
            getInstance catalog config opt = infoFromAnnotation config v).
  { intros v Ho [Hv Hne]%annotationValue_Some.
    apply (getInstance_annotated _ _ _ entity); [done| |done].
    by rewrite getEntityAnnotationValue_current. }
  split; [|by split]. split.
  - intros [r Hr].
    destruct (annotationValue entity OLD_JENKINS_ANNOTATION) as [v|] eqn:Ho.
    { rewrite (Hold v eq_refl) in Hr.
      by destruct (infoFromAnnotation_error _ _ _ Hr r). }
    destruct (annotationValue entity NEW_JENKINS_ANNOTATION) as [v|] eqn:Hn; [|done].
    rewrite (Hnew v eq_refl eq_refl) in Hr.
    by destruct (infoFromAnnotation_error _ _ _ Hr r).
  - intros [Ho Hn]. exists (opt_entityRef opt).
    rewrite (getInstance_fetched _ _ _ _ Hc), (getEntityAnnotationValue_current _ Ho).
    apply annotationValue_None in Hn.
    destruct (annotation entity NEW_JENKINS_ANNOTATION) as [v|]; [|done].
    simpl in Hn. by rewrite Hn.
Qed.

(** An entity without Jenkins annotation, and one with both keys. *)
Lemma annotation_missing_iff_witness :
  getInstance (Sample.catalogOf (Sample.entityOf [("backstage.io/owner", "me")]))
    (Sample.rootOf (Sample.jenkinsNode [] [Sample.defaultEntry]))
    (Sample.options None)
  = Err (AnnotationMissing Sample.componentRef)
  /\ getInstance
       (Sample.catalogOf
          (Sample.entityOf [("jenkins.io/github-folder", "team-1:old-job");
                            ("jenkins.io/job-slug", "new-job")]))
       (Sample.rootOf (Sample.jenkinsNode [] [Sample.teamEntry]))
       (Sample.options None)
     = infoFromAnnotation
         (Sample.rootOf (Sample.jenkinsNode [] [Sample.teamEntry]))
         (JS.lit "team-1:old-job").
Proof.
  split.
  - destruct (annotation_missing_iff
                (Sample.catalogOf (Sample.entityOf [("backstage.io/owner", "me")]))
                (Sample.rootOf (Sample.jenkinsNode [] [Sample.defaultEntry]))
                (Sample.options None)
                (Sample.entityOf [("backstage.io/owner", "me")]) eq_refl)
      as [[_ H] _].
    destruct H as [r Hr]; [split; vm_compute; reflexivity|].
    rewrite Hr. vm_compute in Hr. by injection Hr as <-.
  - destruct (annotation_missing_iff
                (Sample.catalogOf
                   (Sample.entityOf [("jenkins.io/github-folder", "team-1:old-job");
                                     ("jenkins.io/job-slug", "new-job")]))
                (Sample.rootOf (Sample.jenkinsNode [] [Sample.teamEntry]))
                (Sample.options None)
                (Sample.entityOf [("jenkins.io/github-folder", "team-1:old-job");
                                  ("jenkins.io/job-slug", "new-job")]) eq_refl)
      as (_ & H & _).
    apply H. vm_compute. reflexivity.
Defined.

(** The current key is present with an empty value: the call fails with
    AnnotationMissing. *)
Lemma empty_annotation_counts_as_missing :
  let entity := Sample.entityOf [("jenkins.io/job-slug", EmptyString)] in
  annotationPresent entity NEW_JENKINS_ANNOTATION /\
  getInstance (Sample.catalogOf entity)
    (Sample.rootOf (Sample.jenkinsNode [] [Sample.defaultEntry]))
    (Sample.options None)
  = Err (AnnotationMissing Sample.componentRef).
Proof. split; [by eexists|]. vm_compute. reflexivity. Qed.


(** C6 (as amended). For every entity whose annotation mapping has both
    jenkins.io/github-folder and jenkins.io/job-slug, the value of the
    legacy key being non-empty, the value parsed into instance identity and
    job name is the value of the legacy key. *)
Theorem legacy_annotation_first
    (catalog : CatalogClient) (config : Config) (opt : GetInstanceOptions)
    (entity : Entity) (legacy current : list N) :
  catalog (opt_entityRef opt) = Ok (Some entity) ->
  annotation entity OLD_JENKINS_ANNOTATION = Some legacy ->
  annotation entity NEW_JENKINS_ANNOTATION = Some current ->
  legacy <> [] ->
  getEntityAnnotationValue entity = Some legacy /\
  getInstance catalog config opt = infoFromAnnotation config legacy /\
  (forall info, getInstance catalog config opt = Ok info ->
     jobName info = (splitJenkinsAndJobName legacy).2).
Proof.
  intros Hc Hold _ Hne.
  assert (Hv : getEntityAnnotationValue entity = Some legacy)
    by (by apply getEntityAnnotationValue_legacy, annotationValue_Some).
  assert (Hi : getInstance catalog config opt = infoFromAnnotation config legacy)
    by (by apply (getInstance_annotated _ _ _ entity)).
  repeat split; [done..|].
  intros info. rewrite Hi. unfold infoFromAnnotation.
  destruct (splitJenkinsAndJobName legacy) as [jn job].
  destruct (getInstanceConfig jn config) as [c|]; [|done]. cbn [mbind Result_bind].
  destruct (getString c (JS.lit "baseUrl")); [|done].
  destruct (getString c (JS.lit "username")); [|done].
  destruct (getString c (JS.lit "apiKey")); [|done].
  cbn [mbind Result_bind]. by intros [= <-].
Qed.

(** Both keys with non-empty values. *)
Lemma legacy_annotation_first_witness :
  getEntityAnnotationValue
    (Sample.entityOf [("jenkins.io/github-folder", "team-1:old-job");
                      ("jenkins.io/job-slug", "new-job")])
  = Some (JS.lit "team-1:old-job").
Proof.
  apply (legacy_annotation_first
           (Sample.catalogOf
              (Sample.entityOf [("jenkins.io/github-folder", "team-1:old-job");
                                ("jenkins.io/job-slug", "new-job")]))
           (Sample.rootOf (Sample.jenkinsNode [] [Sample.teamEntry]))
           (Sample.options None)
           (Sample.entityOf [("jenkins.io/github-folder", "team-1:old-job");
                             ("jenkins.io/job-slug", "new-job")])
           (JS.lit "team-1:old-job") (JS.lit "new-job")).
  - reflexivity.
  - vm_compute. reflexivity.
  - vm_compute. reflexivity.
  - discriminate.
Defined.

(** Both keys are present, the legacy one with an empty value: the value of
    the current key is parsed. *)
Lemma empty_legacy_annotation_gives_way :
  let entity :=
    Sample.entityOf [("jenkins.io/github-folder", EmptyString);
                     ("jenkins.io/job-slug", "team-1:new-job")] in
  annotation entity OLD_JENKINS_ANNOTATION = Some [] /\
  annotation entity NEW_JENKINS_ANNOTATION = Some (JS.lit "team-1:new-job") /\
  getEntityAnnotationValue entity = Some (JS.lit "team-1:new-job") /\
  exists info,
    getInstance (Sample.catalogOf entity)
      (Sample.rootOf (Sample.jenkinsNode [] [Sample.teamEntry]))
      (Sample.options None) = Ok info /\
    jobName info = JS.lit "new-job".
Proof.
  cbv zeta. do 3 (split; [vm_compute; reflexivity|]).
  eexists. split; vm_compute; reflexivity.
Qed.

(** C7 (as amended). Every call that reaches the instance resolution takes
    exactly one of the two lookups, and the annotation value decides which:
    a value without a colon, and a value whose text before the first colon
    is empty or is "default", take the default-instance lookup; any other
    value takes the named-instance lookup, with the text before its first
    colon. *)
Theorem lookup_chosen_by_annotation
    (rootConfig jenkinsConfig : Config) (v : list N) :
  getConfig rootConfig (JS.lit "jenkins") = Ok jenkinsConfig ->
  let jenkinsName := (splitJenkinsAndJobName v).1 in
  ((colon ∉ v) ->
     lookupPath jenkinsName = DefaultInstanceLookup /\
     getInstanceConfig jenkinsName rootConfig
       = defaultInstanceLookup jenkinsConfig) /\
  (forall prefix rest,
     v = prefix ++ colon :: rest -> (colon ∉ prefix) ->
     (prefix = [] \/ prefix = DEFAULT_JENKINS_NAME ->
        lookupPath jenkinsName = DefaultInstanceLookup /\
        getInstanceConfig jenkinsName rootConfig
          = defaultInstanceLookup jenkinsConfig) /\
     (prefix <> [] -> prefix <> DEFAULT_JENKINS_NAME ->
        lookupPath jenkinsName = NamedInstanceLookup prefix /\
        getInstanceConfig jenkinsName rootConfig
          = namedInstanceLookup prefix jenkinsConfig)).
Proof.
  intros Hj jenkinsName. subst jenkinsName. split.
  - intros Hv. rewrite (getInstanceConfig_path _ _ _ Hj).
    rewrite (split_no_colon _ Hv). done.
  - intros prefix rest -> Hp. rewrite (getInstanceConfig_path _ _ _ Hj).
    rewrite (split_first_colon _ _ Hp). cbn [fst]. split.
    + intros [-> | ->]; done.
    + intros Hne Hnd. by rewrite (lookupPath_named _ Hne Hnd).
Qed.

(** A value without a colon and a value with the prefix "team-1". *)
Lemma lookup_chosen_by_annotation_witness :
  lookupPath (splitJenkinsAndJobName (JS.lit "proj-bar")).1
    = DefaultInstanceLookup
  /\ lookupPath (splitJenkinsAndJobName (JS.lit "team-1:proj-foo")).1
     = NamedInstanceLookup (JS.lit "team-1").
Proof.
  split.
  - apply (lookup_chosen_by_annotation
             (Sample.rootOf (Sample.jenkinsNode [] [Sample.teamEntry]))
             (Sample.jenkinsNode [] [Sample.teamEntry])
             (JS.lit "proj-bar")).
    + vm_compute. reflexivity.
    + apply count_colon_absent. vm_compute. reflexivity.
  - destruct (lookup_chosen_by_annotation
                (Sample.rootOf (Sample.jenkinsNode [] [Sample.teamEntry]))
                (Sample.jenkinsNode [] [Sample.teamEntry])
                (JS.lit "team-1:proj-foo")) as [_ H].
    + vm_compute. reflexivity.
    + apply (H (JS.lit "team-1") (JS.lit "proj-foo")).
      * vm_compute. reflexivity.
      * apply count_colon_absent. vm_compute. reflexivity.
      * discriminate.
      * discriminate.
Defined.

(** The value "default:proj-foo" has a colon and takes the default lookup:
    it resolves to the flat settings, where the named lookup would fail. *)
Lemma default_prefix_takes_default_lookup :
  let jenkinsConfig := Sample.jenkinsNode Sample.flatSettings [Sample.teamEntry] in
  colon ∈ JS.lit "default:proj-foo" /\
  splitJenkinsAndJobName (JS.lit "default:proj-foo")
    = (Some (JS.lit "default"), JS.lit "proj-foo") /\
  lookupPath (splitJenkinsAndJobName (JS.lit "default:proj-foo")).1
    = DefaultInstanceLookup /\
  getInstanceConfig (splitJenkinsAndJobName (JS.lit "default:proj-foo")).1
    (Sample.rootOf jenkinsConfig)
    = Ok jenkinsConfig /\
  namedInstanceLookup (JS.lit "default") jenkinsConfig
    = Err (NamedInstanceNotFound (JS.lit "default")).
Proof.
  cbv zeta. split.
  - apply list_elem_of_In, (count_occ_In N.eq_dec). vm_compute. lia.
  - repeat split; vm_compute; reflexivity.
Qed.

(** C8. The jobName option is not used: two calls that differ in it only
    give the same result, and the job name of a result is the one split off
    the annotation value of the fetched entity. *)
Theorem jobName_option_unused
    (catalog : CatalogClient) (config : Config) (entityRef : EntityName)
    (j1 j2 : option (list N)) :
  getInstance catalog config {| opt_entityRef := entityRef; opt_jobName := j1 |}
    = getInstance catalog config {| opt_entityRef := entityRef; opt_jobName := j2 |}
  /\ (forall info,
        getInstance catalog config
          {| opt_entityRef := entityRef; opt_jobName := j1 |} = Ok info ->
        exists entity v,
          catalog entityRef = Ok (Some entity) /\
          getEntityAnnotationValue entity = Some v /\
          jobName info = (splitJenkinsAndJobName v).2).
Proof.
  split; [reflexivity|].
  intros info. unfold getInstance. cbn [opt_entityRef].
  destruct (catalog entityRef) as [[entity|]|]; cbn [mbind Result_bind]; [|done..].
  destruct (getEntityAnnotationValue entity) as [v|] eqn:Hv; [|done].
  destruct (negb (JS.truthy v)); [done|].
  intros Hinfo. exists entity, v. do 2 (split; [done|]).
  unfold infoFromAnnotation in Hinfo.
  destruct (splitJenkinsAndJobName v) as [jn job].
  destruct (getInstanceConfig jn config) as [c|]; [|done].
  cbn [mbind Result_bind] in Hinfo.
  destruct (getString c (JS.lit "baseUrl")); [|done].
  destruct (getString c (JS.lit "username")); [|done].
  destruct (getString c (JS.lit "apiKey")); [|done].
  cbn [mbind Result_bind] in Hinfo. by injection Hinfo as <-.
Qed.

(** A call that passes a job name the annotation does not have. *)
Lemma jobName_option_unused_witness :
  exists info,
    getInstance
      (Sample.catalogOf (Sample.entityOf [("jenkins.io/job-slug", "team-1:proj-foo")]))
      (Sample.rootOf (Sample.jenkinsNode [] [Sample.teamEntry]))
      {| opt_entityRef := Sample.componentRef;
         opt_jobName := Some (JS.lit "some-other-job") |}
    = Ok info /\
    exists entity v,
      Sample.catalogOf (Sample.entityOf [("jenkins.io/job-slug", "team-1:proj-foo")])
        Sample.componentRef = Ok (Some entity) /\
      getEntityAnnotationValue entity = Some v /\
      jobName info = (splitJenkinsAndJobName v).2.
Proof.
  eexists. split; [vm_compute; reflexivity|].
  apply (jobName_option_unused
           (Sample.catalogOf
              (Sample.entityOf [("jenkins.io/job-slug", "team-1:proj-foo")]))
           (Sample.rootOf (Sample.jenkinsNode [] [Sample.teamEntry]))
           Sample.componentRef (Some (JS.lit "some-other-job")) None).
  vm_compute. reflexivity.
Defined.

End AnnotationClaims.

(** ** The statement on the authorization header *)

Section HeaderClaims.

Import ConfigReader DefaultJenkinsInfoProvider.

(** C4 (as amended). Whenever getInstance succeeds, the headers of the
    result have an Authorization entry whose value is "Basic " followed by
    the base64 encoding of username, ":" and apiKey of the resolved node,
    each code unit written as its low byte.  When all code units of username
    and apiKey are below 256 and username has no colon, decoding what
    follows "Basic " and splitting at the first colon gives username and
    apiKey back. *)
Theorem basic_auth_header
    (catalog : CatalogClient) (config : Config) (opt : GetInstanceOptions)
    (info : JenkinsInfo) :
  getInstance catalog config opt = Ok info ->
  exists instanceConfig username apiKey creds,
    (exists entity v,
       catalog (opt_entityRef opt) = Ok (Some entity) /\
       getEntityAnnotationValue entity = Some v /\
       getInstanceConfig (splitJenkinsAndJobName v).1 config = Ok instanceConfig) /\
    getString instanceConfig (JS.lit "username") = Ok username /\
    getString instanceConfig (JS.lit "apiKey") = Ok apiKey /\
    creds = Base64.encode
              ((fun c => N.land c 255) <$> (username ++ [colon] ++ apiKey)) /\
    headers info ≫= (.!! JS.lit "Authorization")
      = Some (JS.lit "Basic " ++ creds) /\
    (Forall (fun c => (c < 256)%N) username ->
     Forall (fun c => (c < 256)%N) apiKey ->
     (colon ∉ username) ->
     exists bytes,
       Base64.decode creds = Some bytes /\
       splitAtFirstColon (Buffer.to_binary bytes) = Some (username, apiKey)).
Proof.
  unfold getInstance.
  destruct (catalog (opt_entityRef opt)) as [[entity|]|];
    cbn [mbind Result_bind]; [|done..].
  destruct (getEntityAnnotationValue entity) as [v|] eqn:Hv; [|done].
  destruct (negb (JS.truthy v)); [done|].
  unfold infoFromAnnotation.
  destruct (splitJenkinsAndJobName v) as [jn job] eqn:Hs.
  destruct (getInstanceConfig jn config) as [c|] eqn:Hc; [|done].
  cbn [mbind Result_bind].
  destruct (getString c (JS.lit "baseUrl")) as [b|]; [|done].
  destruct (getString c (JS.lit "username")) as [u|] eqn:Hu; [|done].
  destruct (getString c (JS.lit "apiKey")) as [k|] eqn:Hk; [|done].
  cbn [mbind Result_bind]. intros [= <-].
  exists c, u, k, (Base64.encode (Buffer.from_binary (u ++ JS.lit ":" ++ k))).
  split; [exists entity, v; split; [done|split; [done|by rewrite Hs]]|].
  split; [exact Hu|]. split; [exact Hk|]. split; [reflexivity|]. split.
  - cbn [headers mbind option_bind]. by rewrite lookup_singleton_eq.
  - apply credentials_round_trip.
Qed.

(** The default entry, with username "u" and apiKey "k". *)
Lemma basic_auth_header_witness :
  let info :=
    {| baseUrl := JS.lit "https://ci.example/";
       headers := Some {[ JS.lit "Authorization" := JS.lit "Basic dTpr" ]};
       jobName := JS.lit "proj-bar" |} in
  exists creds bytes,
    headers info ≫= (.!! JS.lit "Authorization")
      = Some (JS.lit "Basic " ++ creds) /\
    Base64.decode creds = Some bytes /\
    splitAtFirstColon (Buffer.to_binary bytes) = Some (JS.lit "u", JS.lit "k").
Proof.
  intros info.
  destruct (basic_auth_header
              (Sample.catalogOf (Sample.entityOf [("jenkins.io/job-slug", "proj-bar")]))
              (Sample.rootOf (Sample.jenkinsNode [] [Sample.defaultEntry]))
              (Sample.options None) info)
    as (c & u & k & creds & (entity & v & He & Hv & Hc) & Hu & Hk & _ & Hh & Hback).
  { vm_compute. reflexivity. }
  injection He as <-.
  vm_compute in Hv. injection Hv as <-.
  vm_compute in Hc. injection Hc as <-.
  vm_compute in Hu. injection Hu as <-.
  vm_compute in Hk. injection Hk as <-.
  destruct Hback as (bytes & Hd & Hs).
  - repeat constructor.
  - repeat constructor.
  - apply count_colon_absent. reflexivity.
  - exists creds, bytes. done.
Defined.

(** A username with a colon, and a username with a code unit above 255:
    the header does not give them back. *)
Lemma credentials_not_always_read_back :
  let colonUser :=
    Sample.entry [("name", "default"); ("baseUrl", "https://ci.example/");
                  ("username", "a:b"); ("apiKey", "c")] in
  let wideUser :=
    ConfigNode (<[ JS.lit "username" := [321%N] ]>
                  (Sample.fields [("name", "default");
                                  ("baseUrl", "https://ci.example/");
                                  ("apiKey", "k")])) ∅ ∅ in
  let call := fun entry =>
    getInstance
      (Sample.catalogOf (Sample.entityOf [("jenkins.io/job-slug", "proj-bar")]))
      (Sample.rootOf (Sample.jenkinsNode [] [entry]))
      (Sample.options None) in
  (exists info,
     call colonUser = Ok info /\
     getString colonUser (JS.lit "username") = Ok (JS.lit "a:b") /\
     getString colonUser (JS.lit "apiKey") = Ok (JS.lit "c") /\
     headers info ≫= (.!! JS.lit "Authorization")
       = Some (JS.lit "Basic " ++ JS.lit "YTpiOmM=") /\
     Base64.decode (JS.lit "YTpiOmM=") ≫= splitAtFirstColon
       = Some (JS.lit "a", JS.lit "b:c")) /\
  (exists info,
     call wideUser = Ok info /\
     getString wideUser (JS.lit "username") = Ok [321%N] /\
     getString wideUser (JS.lit "apiKey") = Ok (JS.lit "k") /\
     headers info ≫= (.!! JS.lit "Authorization")
       = Some (JS.lit "Basic " ++ JS.lit "QTpr") /\
     Base64.decode (JS.lit "QTpr") ≫= splitAtFirstColon
       = Some (JS.lit "A", JS.lit "k")).
Proof.
  cbv zeta. split; eexists; (split; [vm_compute; reflexivity|]);
    repeat split; vm_compute; reflexivity.
Qed.

End HeaderClaims.

(** ** Further facts about the resolution *)

Section ResolutionCases.

Import ConfigReader DefaultJenkinsInfoProvider.

Lemma getConfig_error c key e : getConfig c key = Err e -> e = ConfigFieldMissing key.
Proof. unfold getConfig. destruct (children c !! key); congruence. Qed.

(** What a successful lookup has done. *)
Lemma getInstanceConfig_Ok_inv jenkinsName rootConfig c :
  getInstanceConfig jenkinsName rootConfig = Ok c ->
  exists jenkinsConfig,
    getConfig rootConfig (JS.lit "jenkins") = Ok jenkinsConfig /\
    Forall named (getConfigArray jenkinsConfig (JS.lit "instances")) /\
    (head (filter (fun e => nameIs (lookedUpName jenkinsName) e)
             (getConfigArray jenkinsConfig (JS.lit "instances"))) = Some c \/
     (lookupPath jenkinsName = DefaultInstanceLookup /\
      head (filter (fun e => nameIs DEFAULT_JENKINS_NAME e)
              (getConfigArray jenkinsConfig (JS.lit "instances"))) = None /\
      flatSettingsPresent jenkinsConfig /\ c = jenkinsConfig)).
Proof.
  intros H.
  destruct (getConfig rootConfig (JS.lit "jenkins")) as [jc|e] eqn:Hj.
  2:{ unfold getInstanceConfig in H. by rewrite Hj in H. }
  exists jc. split; [done|].
  destruct (all_named_or_some_nameless (getConfigArray jc (JS.lit "instances")))
    as [Hall|Hex].
  2:{ by rewrite (lookup_nameless _ _ _ Hj Hex) in H. }
  split; [done|].
  rewrite (getInstanceConfig_path _ _ _ Hj) in H. unfold lookedUpName.
  destruct (lookupPath jenkinsName) as [|n].
  - rewrite (defaultInstanceLookup_named _ Hall) in H.
    destruct (head _) as [d|]; [left; congruence|]. right.
    destruct (_ || _) eqn:F; [done|]. apply flatSettings_test in F.
    do 3 (split; [done|]). congruence.
  - rewrite (namedInstanceLookup_named _ _ Hall) in H.
    destruct (head _) as [d|]; [left; congruence|done].
Qed.

(** What a failed lookup has met. *)
Lemma getInstanceConfig_Err_inv jenkinsName rootConfig e :
  getInstanceConfig jenkinsName rootConfig = Err e ->
  (getConfig rootConfig (JS.lit "jenkins") = Err e /\
   e = ConfigFieldMissing (JS.lit "jenkins")) \/
  exists jenkinsConfig,
    getConfig rootConfig (JS.lit "jenkins") = Ok jenkinsConfig /\
    ((Exists nameless (getConfigArray jenkinsConfig (JS.lit "instances")) /\
      e = ConfigFieldMissing (JS.lit "name")) \/
     (Forall named (getConfigArray jenkinsConfig (JS.lit "instances")) /\
      ~ Exists (entryNamed (lookedUpName jenkinsName))
          (getConfigArray jenkinsConfig (JS.lit "instances")) /\
      ((lookupPath jenkinsName = DefaultInstanceLookup /\
        ~ flatSettingsPresent jenkinsConfig /\ e = NoDefaultInstance) \/
       (exists n, lookupPath jenkinsName = NamedInstanceLookup n /\
                  e = NamedInstanceNotFound n)))).
Proof.
  intros H.
  destruct (getConfig rootConfig (JS.lit "jenkins")) as [jc|e'] eqn:Hj.
  2:{ left. unfold getInstanceConfig in H. rewrite Hj in H.
      injection H as ->. split; [done|]. by apply getConfig_error in Hj. }
  right. exists jc. split; [done|].
  destruct (all_named_or_some_nameless (getConfigArray jc (JS.lit "instances")))
    as [Hall|Hex].
  2:{ left. rewrite (lookup_nameless _ _ _ Hj Hex) in H. split; [done|congruence]. }
  right. split; [done|].
  rewrite (getInstanceConfig_path _ _ _ Hj) in H.
  rewrite Exists_entryNamed_filter. unfold lookedUpName.
  destruct (lookupPath jenkinsName) as [|n].
  - rewrite (defaultInstanceLookup_named _ Hall) in H.
    destruct (head _) as [d|]; [done|]. split; [by intros [? ?]|]. left.
    destruct (_ || _) eqn:F; [|done]. split; [done|]. split; [|congruence].
    intros Hflat%flatSettings_test. congruence.
  - rewrite (namedInstanceLookup_named _ _ Hall) in H.
    destruct (head _) as [d|]; [done|]. split; [by intros [? ?]|]. right.
    exists n. split; [done|congruence].
Qed.

Lemma infoFromAnnotation_resolved config v c :
  getInstanceConfig (splitJenkinsAndJobName v).1 config = Ok c ->
  infoFromAnnotation config v =
  (b ← getString c (JS.lit "baseUrl");
   u ← getString c (JS.lit "username");
   k ← getString c (JS.lit "apiKey");
   Ok {| baseUrl := b;
         headers := Some {[ JS.lit "Authorization" := basicAuth u k ]};
         jobName := (splitJenkinsAndJobName v).2 |}).
Proof.
  unfold infoFromAnnotation. destruct (splitJenkinsAndJobName v) as [jn job].
  cbn [fst snd]. by intros ->.
Qed.

Lemma infoFromAnnotation_unresolved config v e :
  getInstanceConfig (splitJenkinsAndJobName v).1 config = Err e ->
  infoFromAnnotation config v = Err e.
Proof.
  unfold infoFromAnnotation. destruct (splitJenkinsAndJobName v) as [jn job].
  cbn [fst snd]. by intros ->.
Qed.

Lemma getString_present c key :
  fieldPresent c key <-> exists s, getString c key = Ok s.
Proof.
  unfold fieldPresent, getOptionalString. split.
  - intros (s & Hs & Hne). exists s. by apply getString_Ok.
  - intros (s & [Hs Hne]%getString_Ok). eauto.
Qed.

Lemma getString_absent c key :
  ~ fieldPresent c key <-> getString c key = Err (ConfigFieldMissing key).
Proof.
  rewrite getString_present. split.
  - intros Hno. destruct (getString c key) as [s|e] eqn:E; [destruct Hno; eauto|].
    by rewrite (getString_Err _ _ _ E).
  - intros -> [s ?]. done.
Qed.

Lemma filterByName_app wanted l1 l2 :
  filterByName wanted (l1 ++ l2) =
  (k1 ← filterByName wanted l1; k2 ← filterByName wanted l2; Ok (k1 ++ k2)).
Proof.
  induction l1 as [|c l1 IH].
  - simpl. by destruct (filterByName wanted l2).
  - cbn [app filterByName]. destruct (getString c (JS.lit "name")) as [n|]; [|done].
    cbn [mbind Result_bind]. rewrite IH.
    destruct (filterByName wanted l1) as [k1|]; [|done]. cbn [mbind Result_bind].
    destruct (filterByName wanted l2) as [k2|]; [|done]. cbn [mbind Result_bind].
    by destruct (JS.strict_eq n wanted).
Qed.

Lemma filterByName_irrelevant wanted extra :
  Forall (fun e => named e /\ ~ entryNamed wanted e) extra ->
  filterByName wanted extra = Ok [].
Proof.
  induction 1 as [|c extra [[n Hn] Hno] _ IH]; [done|].
  cbn [filterByName]. rewrite Hn, IH. cbn [mbind Result_bind].
  destruct (JS.strict_eq n wanted) eqn:E; [|done].
  apply strict_eq_true in E as ->. by destruct Hno.
Qed.

End ResolutionCases.

(** ** Further statements on the instance lookup *)

Section ResolutionProperties.

Import ConfigReader DefaultJenkinsInfoProvider.

Lemma lookupPath_named_inv jenkinsName n :
  lookupPath jenkinsName = NamedInstanceLookup n ->
  jenkinsName = Some n /\ n <> [] /\ n <> DEFAULT_JENKINS_NAME.
Proof.
  unfold lookupPath. destruct jenkinsName as [m|]; [|done].
  destruct (JS.truthy m) eqn:T; [|done]. simpl.
  destruct (JS.strict_eq m DEFAULT_JENKINS_NAME) eqn:E; [done|].
  intros [= ->]. split; [done|]. split; [by apply truthy_nonempty|].
  intros Hd. apply strict_eq_true in Hd. congruence.
Qed.

(** X1. A node returned by getInstanceConfig is either an entry of the array
    under jenkins.instances whose name is the looked-up name, or, on the
    default lookup only, the jenkins node itself, which then has non-empty
    baseUrl, username and apiKey while no entry is named "default".  The
    named lookup never falls back to the flat settings. *)
Theorem resolved_node_origin
    (jenkinsName : option (list N)) (rootConfig c : Config) :
  getInstanceConfig jenkinsName rootConfig = Ok c ->
  exists jenkinsConfig,
    getConfig rootConfig (JS.lit "jenkins") = Ok jenkinsConfig /\
    ((c ∈ getConfigArray jenkinsConfig (JS.lit "instances") /\
      entryNamed (lookedUpName jenkinsName) c) \/
     (lookupPath jenkinsName = DefaultInstanceLookup /\
      c = jenkinsConfig /\
      flatSettingsPresent jenkinsConfig /\
      ~ Exists (entryNamed DEFAULT_JENKINS_NAME)
          (getConfigArray jenkinsConfig (JS.lit "instances")))) /\
    (forall n, lookupPath jenkinsName = NamedInstanceLookup n ->
       c ∈ getConfigArray jenkinsConfig (JS.lit "instances") /\ entryNamed n c).
Proof.
  intros (jc & Hj & Hall & Hcase)%getInstanceConfig_Ok_inv.
  exists jc. split; [done|].
  assert (Hentry : forall w,
            head (filter (fun e => nameIs w e)
                    (getConfigArray jc (JS.lit "instances"))) = Some c ->
            c ∈ getConfigArray jc (JS.lit "instances") /\ entryNamed w c).
  { intros w (l1 & l2 & -> & Hc & _)%head_filter_entry.
    split; [|done]. apply elem_of_app. right. left. }
  split.
  - destruct Hcase as [Hhead|(Hp & Hnone & Hflat & ->)]; [left; by apply Hentry|].
    right. do 3 (split; [done|]).
    intros [d Hd]%Exists_entryNamed_filter. congruence.
  - intros n Hn. destruct Hcase as [Hhead|(Hp & _)]; [|congruence].
    apply Hentry. unfold lookedUpName in Hhead. by rewrite Hn in Hhead.
Qed.

(** The lookup of "team-1" gives an entry named "team-1". *)
Lemma resolved_node_origin_witness :
  exists jenkinsConfig,
    getConfig (Sample.rootOf (Sample.jenkinsNode Sample.flatSettings
                                [Sample.defaultEntry; Sample.teamEntry]))
      (JS.lit "jenkins") = Ok jenkinsConfig /\
    Sample.teamEntry ∈ getConfigArray jenkinsConfig (JS.lit "instances") /\
    entryNamed (JS.lit "team-1") Sample.teamEntry.
Proof.
  destruct (resolved_node_origin (Some (JS.lit "team-1"))
              (Sample.rootOf (Sample.jenkinsNode Sample.flatSettings
                                [Sample.defaultEntry; Sample.teamEntry]))
              Sample.teamEntry) as (jc & Hj & _ & Hn).
  - vm_compute. reflexivity.
  - exists jc. split; [done|]. apply Hn. vm_compute. reflexivity.
Defined.

(** X2. getInstanceConfig fails in one of four ways only: the jenkins node is
    missing; an entry of the array has no readable name; on the default
    lookup, no entry is named "default" and the flat settings are incomplete
    (NoDefaultInstance); on the named lookup, no entry has the identity as its
    name (NamedInstanceNotFound, carrying the identity, which is then
    non-empty and not "default"). *)
Theorem lookup_failure_kinds
    (jenkinsName : option (list N)) (rootConfig : Config) (e : Error) :
  getInstanceConfig jenkinsName rootConfig = Err e ->
  (e = ConfigFieldMissing (JS.lit "jenkins") /\
   children rootConfig !! JS.lit "jenkins" = None) \/
  exists jenkinsConfig,
    getConfig rootConfig (JS.lit "jenkins") = Ok jenkinsConfig /\
    ((e = ConfigFieldMissing (JS.lit "name") /\
      Exists nameless (getConfigArray jenkinsConfig (JS.lit "instances"))) \/
     (e = NoDefaultInstance /\
      lookupPath jenkinsName = DefaultInstanceLookup /\
      ~ Exists (entryNamed DEFAULT_JENKINS_NAME)
          (getConfigArray jenkinsConfig (JS.lit "instances")) /\
      ~ flatSettingsPresent jenkinsConfig) \/
     (exists n,
        e = NamedInstanceNotFound n /\
        jenkinsName = Some n /\ n <> [] /\ n <> DEFAULT_JENKINS_NAME /\
        ~ Exists (entryNamed n)
            (getConfigArray jenkinsConfig (JS.lit "instances")))).
Proof.
  intros [[Hj ->]|(jc & Hj & Hcase)]%getInstanceConfig_Err_inv.
  - left. split; [done|]. unfold getConfig in Hj.
    by destruct (children rootConfig !! JS.lit "jenkins").
  - right. exists jc. split; [done|].
    destruct Hcase as [[Hex ->]|(Hall & Hno & [(Hp & Hflat & ->)|(n & Hp & ->)])].
    + by left.
    + right. left. unfold lookedUpName in Hno. rewrite Hp in Hno. done.
    + right. right. exists n. unfold lookedUpName in Hno. rewrite Hp in Hno.
      apply lookupPath_named_inv in Hp as (-> & ? & ?). done.
Qed.

(** A lookup of "team-2" in an array that does not have it. *)
Lemma lookup_failure_kinds_witness :
  ~ Exists (entryNamed (JS.lit "team-2"))
      (getConfigArray (Sample.jenkinsNode Sample.flatSettings [Sample.teamEntry])
         (JS.lit "instances")).
Proof.
  destruct (lookup_failure_kinds (Some (JS.lit "team-2"))
              (Sample.rootOf (Sample.jenkinsNode Sample.flatSettings [Sample.teamEntry]))
              (NamedInstanceNotFound (JS.lit "team-2")))
    as [[H _]|(jc & Hj & [[H _]|[[H _]|(n & Hn & _ & _ & _ & Hno)]])].
  - vm_compute. reflexivity.
  - discriminate.
  - discriminate.
  - discriminate.
  - vm_compute in Hj. injection Hj as <-. by injection Hn as <-.
Defined.

(** X3. Once a node is resolved, getInstance reads baseUrl, username and
    apiKey from it in this order and fails with ConfigFieldMissing on the
    first one that is missing or empty; it succeeds exactly when all three
    are there, with the baseUrl of the node and the job name split off the
    annotation.  A resolved entry with a missing field is not passed over. *)
Theorem settings_read_in_order (config c : Config) (v : list N) :
  getInstanceConfig (splitJenkinsAndJobName v).1 config = Ok c ->
  (~ fieldPresent c (JS.lit "baseUrl") ->
     infoFromAnnotation config v = Err (ConfigFieldMissing (JS.lit "baseUrl"))) /\
  (fieldPresent c (JS.lit "baseUrl") -> ~ fieldPresent c (JS.lit "username") ->
     infoFromAnnotation config v = Err (ConfigFieldMissing (JS.lit "username"))) /\
  (fieldPresent c (JS.lit "baseUrl") -> fieldPresent c (JS.lit "username") ->
   ~ fieldPresent c (JS.lit "apiKey") ->
     infoFromAnnotation config v = Err (ConfigFieldMissing (JS.lit "apiKey"))) /\
  (flatSettingsPresent c <->
     exists info, infoFromAnnotation config v = Ok info /\
                  getOptionalString c (JS.lit "baseUrl") = Some (baseUrl info) /\
                  jobName info = (splitJenkinsAndJobName v).2).
Proof.
  intros Hc. rewrite (infoFromAnnotation_resolved _ _ _ Hc).
  split; [|split; [|split]].
  - intros Hb%getString_absent. by rewrite Hb.
  - intros [b Hb]%getString_present Hu%getString_absent. by rewrite Hb, Hu.
  - intros [b Hb]%getString_present [u Hu]%getString_present Hk%getString_absent.
    by rewrite Hb, Hu, Hk.
  - split.
    + intros ([b Hb]%getString_present & [u Hu]%getString_present
              & [k Hk]%getString_present).
      rewrite Hb, Hu, Hk. cbn [mbind Result_bind]. eexists. split; [done|].
      split; [|done]. by apply getString_Ok in Hb as [? _].
    + intros (info & Hinfo & _).
      destruct (getString c (JS.lit "baseUrl")) as [b|] eqn:Hb; [|done].
      destruct (getString c (JS.lit "username")) as [u|] eqn:Hu; [|done].
      destruct (getString c (JS.lit "apiKey")) as [k|] eqn:Hk; [|done].
      repeat split; apply getString_present; eauto.
Qed.

(** The entry named "default" has no apiKey: the call fails on it, although
    the flat settings are complete. *)
Lemma settings_read_in_order_witness :
  infoFromAnnotation
    (Sample.rootOf (Sample.jenkinsNode Sample.flatSettings
                      [Sample.incompleteDefaultEntry; Sample.defaultEntry]))
    (JS.lit "proj-bar")
  = Err (ConfigFieldMissing (JS.lit "apiKey")).
Proof.
  apply (settings_read_in_order
           (Sample.rootOf (Sample.jenkinsNode Sample.flatSettings
                             [Sample.incompleteDefaultEntry; Sample.defaultEntry]))
           Sample.incompleteDefaultEntry (JS.lit "proj-bar")).
  - vm_compute. reflexivity.
  - eexists. split; [vm_compute; reflexivity|discriminate].
  - eexists. split; [vm_compute; reflexivity|discriminate].
  - intros (s & Hs & _). vm_compute in Hs. discriminate.
Defined.


(** X4. When the default lookup finds no entry named "default" and the jenkins
    node has non-empty baseUrl, username and apiKey, the call succeeds with
    these flat settings: the three required reads that follow cannot fail. *)
Theorem flat_settings_resolve
    (rootConfig jenkinsConfig : Config) (v : list N) :
  getConfig rootConfig (JS.lit "jenkins") = Ok jenkinsConfig ->
  lookupPath (splitJenkinsAndJobName v).1 = DefaultInstanceLookup ->
  Forall named (getConfigArray jenkinsConfig (JS.lit "instances")) ->
  ~ Exists (entryNamed DEFAULT_JENKINS_NAME)
      (getConfigArray jenkinsConfig (JS.lit "instances")) ->
  flatSettingsPresent jenkinsConfig ->
  exists b u k,
    getOptionalString jenkinsConfig (JS.lit "baseUrl") = Some b /\
    getOptionalString jenkinsConfig (JS.lit "username") = Some u /\
    getOptionalString jenkinsConfig (JS.lit "apiKey") = Some k /\
    infoFromAnnotation rootConfig v
      = Ok {| baseUrl := b;
              headers := Some {[ JS.lit "Authorization" := basicAuth u k ]};
              jobName := (splitJenkinsAndJobName v).2 |}.
Proof.
  intros Hj Hp Hall Hno Hflat.
  assert (Hc : getInstanceConfig (splitJenkinsAndJobName v).1 rootConfig
               = Ok jenkinsConfig).
  { rewrite (getInstanceConfig_path _ _ _ Hj), Hp.
    rewrite (defaultInstanceLookup_named _ Hall).
    destruct (head _) as [d|] eqn:E.
    { destruct Hno. apply Exists_entryNamed_filter. eauto. }
    apply flatSettings_test in Hflat. by rewrite Hflat. }
  rewrite (infoFromAnnotation_resolved _ _ _ Hc).
  destruct Hflat as ([b Hb]%getString_present & [u Hu]%getString_present
                     & [k Hk]%getString_present).
  exists b, u, k. rewrite Hb, Hu, Hk.
  apply getString_Ok in Hb as [? _], Hu as [? _], Hk as [? _]. done.
Qed.

(** The flat settings next to an array without a default entry. *)
Lemma flat_settings_resolve_witness :
  exists b u k,
    getOptionalString (Sample.jenkinsNode Sample.flatSettings [Sample.teamEntry])
      (JS.lit "baseUrl") = Some b /\
    getOptionalString (Sample.jenkinsNode Sample.flatSettings [Sample.teamEntry])
      (JS.lit "username") = Some u /\
    getOptionalString (Sample.jenkinsNode Sample.flatSettings [Sample.teamEntry])
      (JS.lit "apiKey") = Some k /\
    infoFromAnnotation
      (Sample.rootOf (Sample.jenkinsNode Sample.flatSettings [Sample.teamEntry]))
      (JS.lit "default:proj-bar")
    = Ok {| baseUrl := b;
            headers := Some {[ JS.lit "Authorization" := basicAuth u k ]};
            jobName := (splitJenkinsAndJobName (JS.lit "default:proj-bar")).2 |}.
Proof.
  apply (flat_settings_resolve
           (Sample.rootOf (Sample.jenkinsNode Sample.flatSettings [Sample.teamEntry]))
           (Sample.jenkinsNode Sample.flatSettings [Sample.teamEntry])
           (JS.lit "default:proj-bar")).
  - vm_compute. reflexivity.
  - vm_compute. reflexivity.
  - repeat constructor; eexists; vm_compute; reflexivity.
  - intros [Hc|Hc]%Exists_cons; [vm_compute in Hc; discriminate|].
    by apply Exists_nil in Hc.
  - repeat split; eexists; (split; [vm_compute; reflexivity|discriminate]).
Defined.

Lemma lookup_with_extra_entries
    (rootConfig rootConfig' jc jc' : Config) (jenkinsName : option (list N))
    (l1 extra l2 : list Config) :
  getConfig rootConfig (JS.lit "jenkins") = Ok jc ->
  getConfig rootConfig' (JS.lit "jenkins") = Ok jc' ->
  strings jc' = strings jc ->
  getConfigArray jc (JS.lit "instances") = l1 ++ l2 ->
  getConfigArray jc' (JS.lit "instances") = l1 ++ extra ++ l2 ->
  Forall (fun e => named e /\ ~ entryNamed (lookedUpName jenkinsName) e) extra ->
  match getInstanceConfig jenkinsName rootConfig,
        getInstanceConfig jenkinsName rootConfig' with
  | Ok c, Ok c' => strings c' = strings c
  | Err e, Err e' => e = e'
  | _, _ => False
  end.
Proof.
  intros Hj Hj' Hs Ha Ha' Hextra.
  rewrite (getInstanceConfig_path _ _ _ Hj), (getInstanceConfig_path _ _ _ Hj').
  unfold lookedUpName in Hextra.
  destruct (lookupPath jenkinsName) as [|n];
    unfold defaultInstanceLookup, namedInstanceLookup, getOptionalString;
    rewrite Ha, Ha', ?Hs, !filterByName_app, (filterByName_irrelevant _ _ Hextra);
    (destruct (filterByName _ l1) as [k1|]; [|done]);
    (destruct (filterByName _ l2) as [k2|]; [|done]);
    cbn [mbind Result_bind app]; destruct (head (k1 ++ k2)); try done.
  by destruct (_ || _).
Qed.

(** X5. Entries of other names do not matter: putting further entries into
    the array under jenkins.instances, each with a readable name that is not
    the looked-up one, changes nothing in the result of the call, be it a
    success or a failure. *)
Theorem other_entries_do_not_matter
    (rootConfig rootConfig' jenkinsConfig jenkinsConfig' : Config)
    (v : list N) (l1 extra l2 : list Config) :
  getConfig rootConfig (JS.lit "jenkins") = Ok jenkinsConfig ->
  getConfig rootConfig' (JS.lit "jenkins") = Ok jenkinsConfig' ->
  strings jenkinsConfig' = strings jenkinsConfig ->
  getConfigArray jenkinsConfig (JS.lit "instances") = l1 ++ l2 ->
  getConfigArray jenkinsConfig' (JS.lit "instances") = l1 ++ extra ++ l2 ->
  Forall (fun e => named e /\
                   ~ entryNamed (lookedUpName (splitJenkinsAndJobName v).1) e)
         extra ->
  infoFromAnnotation rootConfig' v = infoFromAnnotation rootConfig v.
Proof.
  intros Hj Hj' Hs Ha Ha' Hextra.
  pose proof (lookup_with_extra_entries _ _ _ _ _ _ _ _ Hj Hj' Hs Ha Ha' Hextra) as H.
  destruct (getInstanceConfig _ rootConfig) as [c|e] eqn:Hc,
           (getInstanceConfig _ rootConfig') as [c'|e'] eqn:Hc'; try done.
  - rewrite (infoFromAnnotation_resolved _ _ _ Hc),
            (infoFromAnnotation_resolved _ _ _ Hc').
    unfold getString. by rewrite H.
  - rewrite (infoFromAnnotation_unresolved _ _ _ Hc),
            (infoFromAnnotation_unresolved _ _ _ Hc'). by subst.
Qed.

(** An entry named "team-9" put between the two entries of the array. *)
Lemma other_entries_do_not_matter_witness :
  infoFromAnnotation
    (Sample.rootOf (Sample.jenkinsNode Sample.flatSettings
                      [Sample.defaultEntry; Sample.otherEntry; Sample.teamEntry]))
    (JS.lit "team-1:proj-foo")
  = infoFromAnnotation
      (Sample.rootOf (Sample.jenkinsNode Sample.flatSettings
                        [Sample.defaultEntry; Sample.teamEntry]))
      (JS.lit "team-1:proj-foo").
Proof.
  apply (other_entries_do_not_matter
           (Sample.rootOf (Sample.jenkinsNode Sample.flatSettings
                             [Sample.defaultEntry; Sample.teamEntry]))
           (Sample.rootOf (Sample.jenkinsNode Sample.flatSettings
                             [Sample.defaultEntry; Sample.otherEntry; Sample.teamEntry]))
           (Sample.jenkinsNode Sample.flatSettings
              [Sample.defaultEntry; Sample.teamEntry])
           (Sample.jenkinsNode Sample.flatSettings
              [Sample.defaultEntry; Sample.otherEntry; Sample.teamEntry])
           (JS.lit "team-1:proj-foo")
           [Sample.defaultEntry] [Sample.otherEntry] [Sample.teamEntry]).
  - vm_compute. reflexivity.
  - vm_compute. reflexivity.
  - reflexivity.
  - vm_compute. reflexivity.
  - vm_compute. reflexivity.
  - repeat constructor.
    + eexists. vm_compute. reflexivity.
    + vm_compute. discriminate.
Defined.

(** X6. The three ways of asking for the default instance agree: entities
    whose annotation values are "default:job" and ":job" get the same result
    from getInstance, and so does an entity whose value is the bare "job" when
    job is not empty and has no colon. *)
Theorem default_spellings_agree
    (catalog1 catalog2 catalog3 : CatalogClient) (config : Config)
    (opt : GetInstanceOptions) (entity1 entity2 entity3 : Entity)
    (job : list N) :
  catalog1 (opt_entityRef opt) = Ok (Some entity1) ->
  catalog2 (opt_entityRef opt) = Ok (Some entity2) ->
  getEntityAnnotationValue entity1 = Some (DEFAULT_JENKINS_NAME ++ colon :: job) ->
  getEntityAnnotationValue entity2 = Some (colon :: job) ->
  getInstance catalog1 config opt = getInstance catalog2 config opt /\
  (catalog3 (opt_entityRef opt) = Ok (Some entity3) ->
   getEntityAnnotationValue entity3 = Some job ->
   job <> [] -> (colon ∉ job) ->
   getInstance catalog2 config opt = getInstance catalog3 config opt).
Proof.
  intros Hc1 Hc2 Hv1 Hv2.
  assert (Hd : colon ∉ DEFAULT_JENKINS_NAME)
    by (apply count_colon_absent; reflexivity).
  assert (He : colon ∉ ([] : list N)) by apply not_elem_of_nil.
  pose proof (split_first_colon [] job He) as Hs. simpl in Hs.
  rewrite (getInstance_annotated _ config _ _ _ Hc1 Hv1) by (by destruct job).
  rewrite (getInstance_annotated _ config _ _ _ Hc2 Hv2) by done.
  unfold infoFromAnnotation. rewrite (split_first_colon _ job Hd), Hs.
  split; [reflexivity|].
  intros Hc3 Hv3 Hne Hjob.
  rewrite (getInstance_annotated _ config _ _ _ Hc3 Hv3 Hne).
  unfold infoFromAnnotation. by rewrite (split_no_colon _ Hjob).
Qed.

(** The job "proj-bar" asked for as ":proj-bar" and as "proj-bar". *)
Lemma default_spellings_agree_witness :
  getInstance
    (Sample.catalogOf (Sample.entityOf [("jenkins.io/job-slug", ":proj-bar")]))
    (Sample.rootOf (Sample.jenkinsNode Sample.flatSettings [Sample.teamEntry]))
    (Sample.options None)
  = getInstance
      (Sample.catalogOf (Sample.entityOf [("jenkins.io/job-slug", "proj-bar")]))
      (Sample.rootOf (Sample.jenkinsNode Sample.flatSettings [Sample.teamEntry]))
      (Sample.options None).
Proof.
  destruct (default_spellings_agree
              (Sample.catalogOf
                 (Sample.entityOf [("jenkins.io/job-slug", "default:proj-bar")]))
              (Sample.catalogOf
                 (Sample.entityOf [("jenkins.io/job-slug", ":proj-bar")]))
              (Sample.catalogOf
                 (Sample.entityOf [("jenkins.io/job-slug", "proj-bar")]))
              (Sample.rootOf
                 (Sample.jenkinsNode Sample.flatSettings [Sample.teamEntry]))
              (Sample.options None)
              (Sample.entityOf [("jenkins.io/job-slug", "default:proj-bar")])
              (Sample.entityOf [("jenkins.io/job-slug", ":proj-bar")])
              (Sample.entityOf [("jenkins.io/job-slug", "proj-bar")])
              (JS.lit "proj-bar")) as [_ H].
  - reflexivity.
  - reflexivity.
  - vm_compute. reflexivity.
  - vm_compute. reflexivity.
  - apply H.
    + reflexivity.
    + vm_compute. reflexivity.
    + discriminate.
    + apply count_colon_absent. reflexivity.
Defined.

End ResolutionProperties.

(** ** Further statements on the annotation and the failures *)

Section AnnotationProperties.

Import ConfigReader DefaultJenkinsInfoProvider.

Lemma first_colon_unique a b a' b' :
  (colon ∉ a) -> (colon ∉ a') ->
  a ++ colon :: b = a' ++ colon :: b' -> a = a' /\ b = b'.
Proof.
  intros Ha Ha' E.
  pose proof (split_first_colon a b Ha) as H.
  rewrite E, (split_first_colon a' b' Ha') in H. by injection H as -> ->.
Qed.

Lemma infoFromAnnotation_Err_inv config v e :
  infoFromAnnotation config v = Err e ->
  getInstanceConfig (splitJenkinsAndJobName v).1 config = Err e \/
  exists c key,
    getInstanceConfig (splitJenkinsAndJobName v).1 config = Ok c /\
    key ∈ [JS.lit "baseUrl"; JS.lit "username"; JS.lit "apiKey"] /\
    e = ConfigFieldMissing key.
Proof.
  destruct (getInstanceConfig (splitJenkinsAndJobName v).1 config) as [c|e'] eqn:Hc.
  - rewrite (infoFromAnnotation_resolved _ _ _ Hc). intros H. right. exists c.
    destruct (getString c (JS.lit "baseUrl")) as [b|eb] eqn:Hb.
    2:{ exists (JS.lit "baseUrl"). injection H as <-.
        split; [done|]. split; [set_solver|]. by apply getString_Err in Hb. }
    destruct (getString c (JS.lit "username")) as [u|eu] eqn:Hu.
    2:{ exists (JS.lit "username"). injection H as <-.
        split; [done|]. split; [set_solver|]. by apply getString_Err in Hu. }
    destruct (getString c (JS.lit "apiKey")) as [k|ek] eqn:Hk; [done|].
    exists (JS.lit "apiKey"). injection H as <-.
    split; [done|]. split; [set_solver|]. by apply getString_Err in Hk.
  - rewrite (infoFromAnnotation_unresolved _ _ _ Hc). intros [= <-]. by left.
Qed.

Lemma annotation_withAnnotation key value entity k :
  k <> key ->
  annotation (withAnnotation key value entity) k = annotation entity k.
Proof.
  intros Hk. unfold annotation, withAnnotation. cbn [metadata annotations].
  cbn [mbind option_bind]. rewrite lookup_insert_ne by done.
  by destruct (annotations (metadata entity)).
Qed.

(** X7. Joining the two parts of the split gives the annotation value back,
    whatever the value: an identity is found exactly when the value has a
    colon, and it has no colon itself, so that the split is at the first
    colon and later colons stay in the job name. *)
Theorem split_then_rejoin (v : list N) :
  rejoin (splitJenkinsAndJobName v) = v /\
  match (splitJenkinsAndJobName v).1 with
  | Some jenkinsName => (colon ∉ jenkinsName) /\ colon ∈ v
  | None => colon ∉ v
  end.
Proof.
  destruct (first_colon_split v) as [Hv|(a & b & -> & Ha)].
  - by rewrite (split_no_colon _ Hv).
  - rewrite (split_first_colon _ _ Ha). cbn [rejoin fst].
    split; [done|]. split; [done|]. apply elem_of_app. right. left.
Qed.

(** X8. Splitting a value written from an identity without colon and any job
    name, or from a job name without colon alone, gives the parts back. *)
Theorem rejoin_then_split (jenkinsName : option (list N)) (jobName : list N) :
  match jenkinsName with
  | Some n => colon ∉ n
  | None => colon ∉ jobName
  end ->
  splitJenkinsAndJobName (rejoin (jenkinsName, jobName)) = (jenkinsName, jobName).
Proof.
  destruct jenkinsName as [n|]; intros H; cbn [rejoin].
  - by apply split_first_colon.
  - by apply split_no_colon.
Qed.

(** A job name with colons of its own, behind the identity "team-1". *)
Lemma rejoin_then_split_witness :
  splitJenkinsAndJobName
    (rejoin (Some (JS.lit "team-1"), JS.lit "folder:job:42"))
  = (Some (JS.lit "team-1"), JS.lit "folder:job:42").
Proof.
  apply (rejoin_then_split (Some (JS.lit "team-1")) (JS.lit "folder:job:42")).
  apply count_colon_absent. reflexivity.
Defined.

(** X9. A result of getInstance has a non-empty baseUrl, and its jobName is
    empty exactly when the annotation value ends with its first colon: an
    annotation such as "team-1:" is not refused. *)
Theorem result_fields
    (catalog : CatalogClient) (config : Config) (opt : GetInstanceOptions)
    (entity : Entity) (v : list N) (info : JenkinsInfo) :
  catalog (opt_entityRef opt) = Ok (Some entity) ->
  getEntityAnnotationValue entity = Some v ->
  getInstance catalog config opt = Ok info ->
  baseUrl info <> [] /\
  (jobName info = [] <-> exists jenkinsName, (colon ∉ jenkinsName) /\
                                           v = jenkinsName ++ [colon]).
Proof.
  intros Hc Hv. rewrite (getInstance_fetched _ _ _ _ Hc), Hv.
  destruct (JS.truthy v) eqn:T; [|done]. apply truthy_nonempty in T. simpl.
  destruct (getInstanceConfig (splitJenkinsAndJobName v).1 config) as [c|e] eqn:Hr.
  2:{ by rewrite (infoFromAnnotation_unresolved _ _ _ Hr). }
  rewrite (infoFromAnnotation_resolved _ _ _ Hr).
  destruct (getString c (JS.lit "baseUrl")) as [b|] eqn:Hb; [|done].
  destruct (getString c (JS.lit "username")) as [u|]; [|done].
  destruct (getString c (JS.lit "apiKey")) as [k|]; [|done].
  cbn [mbind Result_bind]. intros [= <-]. cbn [baseUrl jobName].
  split; [by apply getString_Ok in Hb as [_ ?]|].
  destruct (first_colon_split v) as [Hno|(a & b' & -> & Ha)].
  - rewrite (split_no_colon _ Hno). cbn [snd]. split; [done|].
    intros (n & _ & ->). destruct Hno. apply elem_of_app. right. left.
  - rewrite (split_first_colon _ _ Ha). cbn [snd]. split.
    + intros ->. by exists a.
    + intros (n & Hn & E).
      by destruct (first_colon_unique a b' n [] Ha Hn E) as [_ ->].
Qed.

(** The annotation "default:" resolves, with an empty job name. *)
Lemma result_fields_witness :
  exists info,
    getInstance
      (Sample.catalogOf (Sample.entityOf [("jenkins.io/job-slug", "default:")]))
      (Sample.rootOf (Sample.jenkinsNode [] [Sample.defaultEntry]))
      (Sample.options None) = Ok info /\
    baseUrl info <> [] /\ jobName info = [].
Proof.
  eexists. split; [vm_compute; reflexivity|].
  destruct (result_fields
              (Sample.catalogOf (Sample.entityOf [("jenkins.io/job-slug", "default:")]))
              (Sample.rootOf (Sample.jenkinsNode [] [Sample.defaultEntry]))
              (Sample.options None)
              (Sample.entityOf [("jenkins.io/job-slug", "default:")])
              (JS.lit "default:")
              {| baseUrl := JS.lit "https://ci.example/";
                 headers := Some {[ JS.lit "Authorization" := JS.lit "Basic dTpr" ]};
                 jobName := [] |}) as [Hb Hj].
  - reflexivity.
  - vm_compute. reflexivity.
  - vm_compute. reflexivity.
  - split; [exact Hb|reflexivity].
Defined.

(** X10. Annotations under other keys are not looked at: adding or changing
    an annotation whose key is neither jenkins.io/github-folder nor
    jenkins.io/job-slug leaves the result of getInstance as it is. *)
Theorem other_annotations_ignored
    (catalog catalog' : CatalogClient) (config : Config)
    (opt : GetInstanceOptions) (entity : Entity) (key value : list N) :
  key <> OLD_JENKINS_ANNOTATION ->
  key <> NEW_JENKINS_ANNOTATION ->
  catalog (opt_entityRef opt) = Ok (Some entity) ->
  catalog' (opt_entityRef opt) = Ok (Some (withAnnotation key value entity)) ->
  getInstance catalog' config opt = getInstance catalog config opt.
Proof.
  intros Hold Hnew Hc Hc'.
  rewrite (getInstance_fetched _ _ _ _ Hc), (getInstance_fetched _ _ _ _ Hc').
  unfold getEntityAnnotationValue.
  by rewrite !annotation_withAnnotation.
Qed.

(** An owner annotation added to an entity with a job slug. *)
Lemma other_annotations_ignored_witness :
  getInstance
    (Sample.catalogOf
       (withAnnotation (JS.lit "backstage.io/owner") (JS.lit "team-1:me")
          (Sample.entityOf [("jenkins.io/job-slug", "team-1:proj-foo")])))
    (Sample.rootOf (Sample.jenkinsNode [] [Sample.teamEntry]))
    (Sample.options None)
  = getInstance
      (Sample.catalogOf (Sample.entityOf [("jenkins.io/job-slug", "team-1:proj-foo")]))
      (Sample.rootOf (Sample.jenkinsNode [] [Sample.teamEntry]))
      (Sample.options None).
Proof.
  apply (other_annotations_ignored
           (Sample.catalogOf
              (Sample.entityOf [("jenkins.io/job-slug", "team-1:proj-foo")]))
           (Sample.catalogOf
              (withAnnotation (JS.lit "backstage.io/owner") (JS.lit "team-1:me")
                 (Sample.entityOf [("jenkins.io/job-slug", "team-1:proj-foo")])))
           (Sample.rootOf (Sample.jenkinsNode [] [Sample.teamEntry]))
           (Sample.options None)
           (Sample.entityOf [("jenkins.io/job-slug", "team-1:proj-foo")])
           (JS.lit "backstage.io/owner") (JS.lit "team-1:me")).
  - discriminate.
  - discriminate.
  - reflexivity.
  - reflexivity.
Defined.


Lemma annotation_value_falsy entity :
  JS.truthy_opt (getEntityAnnotationValue entity) = false <->
  annotationValue entity OLD_JENKINS_ANNOTATION = None /\
  annotationValue entity NEW_JENKINS_ANNOTATION = None.
Proof.
  rewrite !annotationValue_None. unfold getEntityAnnotationValue, JS.or_else.
  destruct (JS.truthy_opt (annotation entity OLD_JENKINS_ANNOTATION)) eqn:E.
  - rewrite E. naive_solver.
  - naive_solver.
Qed.

Lemma getInstance_unannotated catalog config opt entity :
  catalog (opt_entityRef opt) = Ok (Some entity) ->
  JS.truthy_opt (getEntityAnnotationValue entity) = false ->
  getInstance catalog config opt = Err (AnnotationMissing (opt_entityRef opt)).
Proof.
  intros Hc Hv. rewrite (getInstance_fetched _ _ _ _ Hc).
  destruct (getEntityAnnotationValue entity) as [v|]; [|done].
  simpl in Hv. by rewrite Hv.
Qed.

Lemma infoFromAnnotation_error_kind config v e :
  infoFromAnnotation config v = Err e ->
  e = NoDefaultInstance \/
  (exists n, e = NamedInstanceNotFound n /\ (splitJenkinsAndJobName v).1 = Some n) \/
  (exists key, e = ConfigFieldMissing key /\ key ∈ readKeys).
Proof.
  intros [Hr|(c & key & _ & Hkey & ->)]%infoFromAnnotation_Err_inv.
  - apply getInstanceConfig_Err_inv in Hr
      as [[_ ->]|(jc & _ & [[_ ->]|(_ & _ & [(_ & _ & ->)|(n & Hp & ->)])])].
    + right. right. eexists. split; [done|]. unfold readKeys. set_solver.
    + right. right. eexists. split; [done|]. unfold readKeys. set_solver.
    + by left.
    + right. left. exists n. split; [done|].
      by apply lookupPath_named_inv in Hp as [? _].
  - right. right. exists key. split; [done|]. unfold readKeys. set_solver.
Qed.

(** X11. Once the catalog has answered, getInstance fails with EntityNotFound
    if and only if the answer holds no entity, and the error then carries the
    requested reference; no later step gives this error. *)
Theorem entity_not_found_iff
    (catalog : CatalogClient) (config : Config) (opt : GetInstanceOptions)
    (found : option Entity) :
  catalog (opt_entityRef opt) = Ok found ->
  ((exists r, getInstance catalog config opt = Err (EntityNotFound r))
   <-> found = None) /\
  (found = None ->
     getInstance catalog config opt = Err (EntityNotFound (opt_entityRef opt))).
Proof.
  intros Hc.
  assert (Hnone : found = None ->
            getInstance catalog config opt = Err (EntityNotFound (opt_entityRef opt))).
  { intros ->. unfold getInstance. by rewrite Hc. }
  split; [|done]. split; [|by eauto].
  intros [r Hr]. destruct found as [entity|]; [|done].
  rewrite (getInstance_fetched _ _ _ _ Hc) in Hr.
  destruct (getEntityAnnotationValue entity) as [v|]; [|done].
  destruct (negb (JS.truthy v)); [done|].
  apply infoFromAnnotation_error_kind in Hr as [?|[(? & ? & _)|(? & ? & _)]]; done.
Qed.

(** A catalog without the entity. *)
Lemma entity_not_found_iff_witness :
  getInstance (fun _ => Ok None)
    (Sample.rootOf (Sample.jenkinsNode [] [Sample.teamEntry]))
    (Sample.options None)
  = Err (EntityNotFound Sample.componentRef).
Proof.
  apply (entity_not_found_iff (fun _ => Ok None)
           (Sample.rootOf (Sample.jenkinsNode [] [Sample.teamEntry]))
           (Sample.options None) None); reflexivity.
Defined.

(** X12. The configuration is read only after the entity and its annotation
    are found: when the catalog rejects the request, has no entity, or the
    entity has no non-empty Jenkins annotation, the result is the same for
    every configuration, so that no fault of the configuration hides these
    failures. *)
Theorem early_failures_ignore_config
    (catalog : CatalogClient) (config config' : Config)
    (opt : GetInstanceOptions) :
  (forall entity,
     catalog (opt_entityRef opt) = Ok (Some entity) ->
     annotationValue entity OLD_JENKINS_ANNOTATION = None /\
     annotationValue entity NEW_JENKINS_ANNOTATION = None) ->
  getInstance catalog config opt = getInstance catalog config' opt.
Proof.
  intros H.
  destruct (catalog (opt_entityRef opt)) as [[entity|]|e] eqn:Hc.
  - specialize (H entity eq_refl). apply annotation_value_falsy in H.
    by rewrite (getInstance_unannotated _ config _ _ Hc H),
      (getInstance_unannotated _ config' _ _ Hc H).
  - unfold getInstance. by rewrite Hc.
  - unfold getInstance. by rewrite Hc.
Qed.

(** An entity without annotation, with a configuration and with an empty one. *)
Lemma early_failures_ignore_config_witness :
  getInstance
    (Sample.catalogOf (Sample.entityOf [("backstage.io/owner", "me")]))
    (Sample.rootOf (Sample.jenkinsNode [] [Sample.teamEntry]))
    (Sample.options None)
  = getInstance
      (Sample.catalogOf (Sample.entityOf [("backstage.io/owner", "me")]))
      (ConfigNode ∅ ∅ ∅)
      (Sample.options None).
Proof.
  apply (early_failures_ignore_config
           (Sample.catalogOf (Sample.entityOf [("backstage.io/owner", "me")]))
           (Sample.rootOf (Sample.jenkinsNode [] [Sample.teamEntry]))
           (ConfigNode ∅ ∅ ∅)
           (Sample.options None)).
  intros entity [= <-]. split; vm_compute; reflexivity.
Defined.

(** X13. Once the catalog has answered, every failure of getInstance is one
    of these: EntityNotFound with the requested reference, when there is no
    entity; AnnotationMissing with the requested reference, when neither
    annotation key carries a non-empty value; and, for an entity with the
    non-empty annotation value v, NoDefaultInstance, NamedInstanceNotFound
    with the identity split off v, or ConfigFieldMissing on one of the keys
    jenkins, name, baseUrl, username and apiKey. *)
Theorem getInstance_failure_kinds
    (catalog : CatalogClient) (config : Config) (opt : GetInstanceOptions)
    (found : option Entity) (e : Error) :
  catalog (opt_entityRef opt) = Ok found ->
  getInstance catalog config opt = Err e ->
  (e = EntityNotFound (opt_entityRef opt) /\ found = None) \/
  (e = AnnotationMissing (opt_entityRef opt) /\
   exists entity,
     found = Some entity /\
     annotationValue entity OLD_JENKINS_ANNOTATION = None /\
     annotationValue entity NEW_JENKINS_ANNOTATION = None) \/
  (exists entity v,
     found = Some entity /\
     getEntityAnnotationValue entity = Some v /\ v <> [] /\
     (e = NoDefaultInstance \/
      (exists n, e = NamedInstanceNotFound n /\
                 (splitJenkinsAndJobName v).1 = Some n) \/
      (exists key, e = ConfigFieldMissing key /\ key ∈ readKeys))).
Proof.
  intros Hc He. destruct found as [entity|].
  2:{ left. unfold getInstance in He. rewrite Hc in He.
      cbn [mbind Result_bind] in He. split; [congruence|done]. }
  right.
  destruct (JS.truthy_opt (getEntityAnnotationValue entity)) eqn:T.
  - right. destruct (getEntityAnnotationValue entity) as [v|] eqn:Hv; [|done].
    simpl in T. exists entity, v. do 2 (split; [done|]).
    split; [by apply truthy_nonempty|].
    rewrite (getInstance_annotated _ config _ _ _ Hc Hv) in He
      by (by apply truthy_nonempty).
    by apply (infoFromAnnotation_error_kind config).
  - left. rewrite (getInstance_unannotated _ config _ _ Hc T) in He.
    split; [congruence|]. exists entity. split; [done|].
    by apply annotation_value_falsy.
Qed.

(** The annotation names an instance that the configuration does not have:
    the error carries the identity of the annotation. *)
Lemma getInstance_failure_kinds_witness :
  exists v,
    getEntityAnnotationValue
      (Sample.entityOf [("jenkins.io/job-slug", "team-2:proj-foo")]) = Some v /\
    (splitJenkinsAndJobName v).1 = Some (JS.lit "team-2").
Proof.
  destruct (getInstance_failure_kinds
              (Sample.catalogOf
                 (Sample.entityOf [("jenkins.io/job-slug", "team-2:proj-foo")]))
              (Sample.rootOf (Sample.jenkinsNode [] [Sample.teamEntry]))
              (Sample.options None)
              (Some (Sample.entityOf [("jenkins.io/job-slug", "team-2:proj-foo")]))
              (NamedInstanceNotFound (JS.lit "team-2")))
    as [[H _]|[[H _]|(entity & v & He & Hv & _ & [H|[(n & Hn & Hs)|(k & H & _)]])]].
  - reflexivity.
  - vm_compute. reflexivity.
  - discriminate.
  - discriminate.
  - discriminate.
  - injection He as <-. injection Hn as <-. by exists v.
  - discriminate.
Defined.

End AnnotationProperties.

(** ** Further statements on the authorization header *)

Section HeaderProperties.

Import ConfigReader DefaultJenkinsInfoProvider.

Lemma digit_base64Char n : base64Char (Base64.digit n).
Proof.
  unfold base64Char, Base64.digit.
  destruct (nth_in_or_default (N.to_nat n) Base64.alphabet Base64.pad) as [H|H].
  - left. by apply list_elem_of_In.
  - by right.
Qed.

Lemma pad_base64Char : base64Char Base64.pad.
Proof. by right. Qed.

Lemma encode_base64Chars bytes : Forall base64Char (Base64.encode bytes).
Proof.
  induction bytes as [|b1|b1 b2|b1 b2 b3 rest IH] using list_ind3;
    cbn [Base64.encode];
    repeat (constructor; [apply digit_base64Char || apply pad_base64Char|]);
    done || constructor.
Qed.

Lemma encode_length bytes :
  List.length (Base64.encode bytes) = (4 * ((List.length bytes + 2) / 3))%nat.
Proof.
  induction bytes as [|b1|b1 b2|b1 b2 b3 rest IH] using list_ind3;
    [reflexivity..|].
  cbn [Base64.encode List.length]. rewrite IH.
  replace (S (S (S (List.length rest))) + 2)%nat
    with (List.length rest + 2 + 1 * 3)%nat by lia.
  rewrite Nat.div_add by done. lia.
Qed.

Lemma base64Char_ascii c : base64Char c -> (c < 128)%N.
Proof.
  assert (Hall : Forall (fun c => (c < 128)%N) Base64.alphabet)
    by (repeat constructor).
  intros [Hc| ->]; [|done]. by apply (proj1 (Forall_forall _ _) Hall).
Qed.

Lemma encode_injective bytes bytes' :
  Forall (fun b => (b < 256)%N) bytes ->
  Forall (fun b => (b < 256)%N) bytes' ->
  Base64.encode bytes = Base64.encode bytes' -> bytes = bytes'.
Proof.
  intros Hb Hb' E. apply (f_equal Base64.decode) in E.
  rewrite !decode_encode in E by done. congruence.
Qed.

Lemma from_binary_app s t :
  Buffer.from_binary (s ++ t) = Buffer.from_binary s ++ Buffer.from_binary t.
Proof. unfold Buffer.from_binary. apply fmap_app. Qed.

(** X14. The headers of a result hold the Authorization entry and nothing
    else; its value is "Basic " followed by a non-empty base64 text, made of
    letters, digits, "+", "/" and "=" in groups of four, so that the value is
    plain ASCII whatever the code units of the credentials are. *)
Theorem header_shape
    (catalog : CatalogClient) (config : Config) (opt : GetInstanceOptions)
    (info : JenkinsInfo) :
  getInstance catalog config opt = Ok info ->
  exists creds,
    headers info = Some {[ JS.lit "Authorization" := JS.lit "Basic " ++ creds ]} /\
    creds <> [] /\
    Forall base64Char creds /\
    (List.length creds mod 4 = 0)%nat /\
    Forall (fun c => (c < 128)%N) (JS.lit "Basic " ++ creds).
Proof.
  unfold getInstance.
  destruct (catalog (opt_entityRef opt)) as [[entity|]|];
    cbn [mbind Result_bind]; [|done..].
  destruct (getEntityAnnotationValue entity) as [v|]; [|done].
  destruct (negb (JS.truthy v)); [done|].
  destruct (getInstanceConfig (splitJenkinsAndJobName v).1 config) as [c|] eqn:Hr.
  2:{ by rewrite (infoFromAnnotation_unresolved _ _ _ Hr). }
  rewrite (infoFromAnnotation_resolved _ _ _ Hr).
  destruct (getString c (JS.lit "baseUrl")) as [b|]; [|done].
  destruct (getString c (JS.lit "username")) as [u|]; [|done].
  destruct (getString c (JS.lit "apiKey")) as [k|]; [|done].
  cbn [mbind Result_bind]. intros [= <-]. cbn [headers].
  exists (Base64.encode (Buffer.from_binary (u ++ JS.lit ":" ++ k))).
  split; [reflexivity|].
  assert (Hlen : List.length (Base64.encode (Buffer.from_binary (u ++ JS.lit ":" ++ k)))
                 = (4 * ((List.length (u ++ JS.lit ":" ++ k) + 2) / 3))%nat).
  { rewrite encode_length. unfold Buffer.from_binary. by rewrite length_fmap. }
  split; [|split; [|split]].
  - intros E. rewrite E in Hlen.
    change (JS.lit ":" ++ k) with (colon :: k) in Hlen.
    rewrite length_app, length_cons in Hlen. cbn [List.length] in Hlen.
    assert (1 <= (List.length u + S (List.length k) + 2) / 3)%nat
      by (apply Nat.div_le_lower_bound; lia).
    lia.
  - apply encode_base64Chars.
  - rewrite Hlen, Nat.mul_comm. by apply Nat.Div0.mod_mul.
  - apply Forall_app. split; [repeat constructor|].
    eapply Forall_impl; [apply encode_base64Chars|]. apply base64Char_ascii.
Qed.

(** The header of the default entry. *)
Lemma header_shape_witness :
  exists creds,
    Some ({[ JS.lit "Authorization" := JS.lit "Basic dTpr" ]} : gmap (list N) (list N))
      = Some {[ JS.lit "Authorization" := JS.lit "Basic " ++ creds ]} /\
    creds <> [] /\
    Forall base64Char creds /\
    (List.length creds mod 4 = 0)%nat /\
    Forall (fun c => (c < 128)%N) (JS.lit "Basic " ++ creds).
Proof.
  apply (header_shape
           (Sample.catalogOf (Sample.entityOf [("jenkins.io/job-slug", "proj-bar")]))
           (Sample.rootOf (Sample.jenkinsNode [] [Sample.defaultEntry]))
           (Sample.options None)
           {| baseUrl := JS.lit "https://ci.example/";
              headers := Some {[ JS.lit "Authorization" := JS.lit "Basic dTpr" ]};
              jobName := JS.lit "proj-bar" |}).
  vm_compute. reflexivity.
Defined.

(** X15. For all strings username and apiKey, decoding the base64 part of
    the header value gives the low bytes of username, the byte of ":" and the
    low bytes of apiKey: the header is the standard encoding of these bytes,
    and code units above 255 lose their high byte. *)
Theorem header_decodes_to_low_bytes (username apiKey : list N) :
  exists creds,
    basicAuth username apiKey = JS.lit "Basic " ++ creds /\
    Base64.decode creds
      = Some (((fun c => N.land c 255) <$> username)
              ++ [colon] ++ ((fun c => N.land c 255) <$> apiKey)).
Proof.
  exists (Base64.encode (Buffer.from_binary (username ++ JS.lit ":" ++ apiKey))).
  split; [reflexivity|].
  rewrite decode_encode by apply from_binary_bytes.
  by rewrite !from_binary_app.
Qed.

(** X16. Credentials made of code units below 256, the usernames without
    colon, are told apart by the header: two different pairs of username and
    apiKey never give the same Authorization value. *)
Theorem distinct_credentials_distinct_headers
    (username apiKey username' apiKey' : list N) :
  Forall (fun c => (c < 256)%N) (username ++ apiKey) ->
  Forall (fun c => (c < 256)%N) (username' ++ apiKey') ->
  (colon ∉ username) -> (colon ∉ username') ->
  (username, apiKey) <> (username', apiKey') ->
  basicAuth username apiKey <> basicAuth username' apiKey'.
Proof.
  intros [Hu Hk]%Forall_app [Hu' Hk']%Forall_app Hc Hc' Hne E.
  unfold basicAuth in E. apply app_inv_head in E.
  assert (Hall : forall u k,
            Forall (fun c => (c < 256)%N) u -> Forall (fun c => (c < 256)%N) k ->
            Forall (fun c => (c < 256)%N) (u ++ JS.lit ":" ++ k)).
  { intros u k ? ?. apply Forall_app. split; [done|]. by constructor. }
  apply encode_injective in E; [|apply from_binary_bytes..].
  rewrite !from_binary_latin1 in E by (by apply Hall).
  destruct (first_colon_unique _ _ _ _ Hc Hc' E) as [-> ->]. done.
Qed.

(** Two api keys under one username. *)
Lemma distinct_credentials_distinct_headers_witness :
  basicAuth (JS.lit "u") (JS.lit "k") <> basicAuth (JS.lit "u") (JS.lit "l").
Proof.
  apply (distinct_credentials_distinct_headers
           (JS.lit "u") (JS.lit "k") (JS.lit "u") (JS.lit "l")).
  - repeat constructor.
  - repeat constructor.
  - apply count_colon_absent. reflexivity.
  - apply count_colon_absent. reflexivity.
  - discriminate.
Defined.

End HeaderProperties.

(** ** The scenarios of the specification *)

Section Scenarios.

Import ConfigReader DefaultJenkinsInfoProvider.

(** The canned header of the dummy provider is what [basicAuth] computes for
    the credentials it encodes. *)
Example dummy_header_is_basic_auth :
  basicAuth (JS.lit "admin") (JS.lit "11ec256e438501c3f5c76b751a7e47af83")
  = JS.lit "Basic YWRtaW46MTFlYzI1NmU0Mzg1MDFjM2Y1Yzc2Yjc1MWE3ZTQ3YWY4Mw==".
Proof. vm_compute. reflexivity. Qed.

Example scenario_named_instance :
  getInstance
    (Sample.catalogOf (Sample.entityOf [("jenkins.io/job-slug", "team-1:proj-foo")]))
    (Sample.rootOf
       (Sample.jenkinsNode []
          [Sample.entry [("name", "team-1"); ("baseUrl", "https://ci.example/");
                         ("username", "u"); ("apiKey", "k")]]))
    (Sample.options None)
  = Ok {| baseUrl := JS.lit "https://ci.example/";
          headers := Some {[ JS.lit "Authorization" := JS.lit "Basic dTpr" ]};
          jobName := JS.lit "proj-foo" |}.
Proof. vm_compute. reflexivity. Qed.

Example scenario_flat_settings :
  getInstance
    (Sample.catalogOf (Sample.entityOf [("jenkins.io/job-slug", "proj-bar")]))
    (Sample.rootOf (Sample.entry Sample.flatSettings))
    (Sample.options None)
  = Ok {| baseUrl := JS.lit "https://flat.example/";
          headers := Some {[ JS.lit "Authorization" := JS.lit "Basic ZnU6Zms=" ]};
          jobName := JS.lit "proj-bar" |}.
Proof. vm_compute. reflexivity. Qed.

Example scenario_unknown_instance :
  getInstance
    (Sample.catalogOf (Sample.entityOf [("jenkins.io/job-slug", "team-2:proj-foo")]))
    (Sample.rootOf (Sample.jenkinsNode [] [Sample.teamEntry]))
    (Sample.options None)
  = Err (NamedInstanceNotFound (JS.lit "team-2")).
Proof. vm_compute. reflexivity. Qed.

Example scenario_entity_not_found :
  getInstance (fun _ => Ok None)
    (Sample.rootOf (Sample.jenkinsNode [] [Sample.teamEntry]))
    (Sample.options None)
  = Err (EntityNotFound Sample.componentRef).
Proof. reflexivity. Qed.

Example scenario_two_of_three_flat_fields :
  getInstance
    (Sample.catalogOf (Sample.entityOf [("jenkins.io/job-slug", "proj-bar")]))
    (Sample.rootOf
       (Sample.entry [("baseUrl", "https://flat.example/"); ("username", "fu")]))
    (Sample.options None)
  = Err NoDefaultInstance.
Proof. vm_compute. reflexivity. Qed.

End Scenarios.
